(** * Acompanhamento de desempenho: fetch, clean, merge, aggregate

    A shallow embedding of the data pipeline of [main.py]:
    [_fetch_df] and its local [fix] (row cleaner), [carregar_dados] (loader, memoised by
    [st.cache_data]), [resumo_alunos] (per-student summary) and the
    "Ir Alem" [ranking].

    Modelling conventions.
    - Text is a [string] holding the UTF-8 bytes of a Python [str];
      [str.rstrip]/[str.strip] remove the ASCII white space of Python
      (code points 9-13, 28-32).  [str.upper] maps [a-z] to [A-Z] and the
      two letters outside ASCII whose upper case is an ASCII letter
      (U+0131 to I, U+017F to S); it leaves other letters outside ASCII
      as they are, which does not change whether the result is "SIM".
    - A pandas [float64] cell is a [float]: [NaN] (the null of pandas),
      the two infinities, or a finite value kept as an exact, reduced
      rational.  Division by zero follows numpy ([x/0] is [inf], [-inf]
      or [NaN]); the binary rounding error of finite arithmetic and the
      sign of zero are outside the model.  Where the rounding error decides
      a property, the average of a group, the computation is given on
      IEEE 754 doubles as well ([mean_b64]).
    - A Python exception is the [Raise] case of [result]. *)

From Stdlib Require Import List String Ascii Bool ZArith QArith Qreduction Lia.
From Stdlib Require Import Permutation DecimalString Sorted.
From Stdlib Require PrimFloat.
Import ListNotations.

Local Open Scope string_scope.
Local Open Scope Z_scope.

(** ** Exceptions *)

Inductive exn := AttributeError | ValueError | OverflowError.

Inductive result (A : Type) : Type :=
| Ok (a : A)
| Raise (e : exn).

Arguments Ok {A} a.
Arguments Raise {A} e.

Definition bind {A B : Type} (m : result A) (k : A -> result B) : result B :=
  match m with
  | Ok a => k a
  | Raise e => Raise e
  end.

Notation "x <- m ;; k" := (bind m (fun x => k))
  (at level 61, m at next level, right associativity).

Fixpoint mapM {A B : Type} (f : A -> result B) (l : list A) : result (list B) :=
  match l with
  | [] => Ok []
  | a :: l' => b <- f a ;; bs <- mapM f l' ;; Ok (b :: bs)
  end.

(** ** Text *)

(** [str.isspace] on one ASCII character. *)
Definition is_space (c : ascii) : bool :=
  let n := N_of_ascii c in
  (((9 <=? n) && (n <=? 13)) || ((28 <=? n) && (n <=? 32)))%N.

(** [s.rstrip()] *)
Fixpoint rstrip (s : string) : string :=
  match s with
  | EmptyString => EmptyString
  | String c s' =>
      match rstrip s' with
      | EmptyString => if is_space c then EmptyString else String c EmptyString
      | r => String c r
      end
  end.

(** [s.lstrip()] *)
Fixpoint lstrip (s : string) : string :=
  match s with
  | EmptyString => EmptyString
  | String c s' => if is_space c then lstrip s' else s
  end.

(** [s.strip()] *)
Definition strip (s : string) : string := rstrip (lstrip s).

Definition upper_char (c : ascii) : ascii :=
  let n := N_of_ascii c in
  if ((97 <=? n) && (n <=? 122))%N then ascii_of_N (n - 32) else c.

(** The two UTF-8 bytes of U+0131, the dotless small i. *)
Definition is_dotless_i (c c2 : ascii) : bool :=
  Ascii.eqb c "196" && Ascii.eqb c2 "177".

(** The two UTF-8 bytes of U+017F, the long small s. *)
Definition is_long_s (c c2 : ascii) : bool :=
  Ascii.eqb c "197" && Ascii.eqb c2 "191".

(** [s.upper()]: U+0131 becomes I and U+017F becomes S. *)
Fixpoint upper (s : string) : string :=
  match s with
  | EmptyString => EmptyString
  | String c s' =>
      match s' with
      | String c2 s'' =>
          if is_dotless_i c c2 then String "I" (upper s'')
          else if is_long_s c c2 then String "S" (upper s'')
          else String (upper_char c) (upper s')
      | EmptyString => String (upper_char c) EmptyString
      end
  end.

Definition lower_char (c : ascii) : ascii :=
  let n := N_of_ascii c in
  if ((65 <=? n) && (n <=? 90))%N then ascii_of_N (n + 32) else c.

(** [s.casefold()], the case folding by which two texts are equal without
    regard to case: [A-Z] become [a-z] and U+017F becomes s, while U+0131
    folds to itself; other letters outside ASCII are left as they are,
    which does not change whether the result is "sim". *)
Fixpoint casefold (s : string) : string :=
  match s with
  | EmptyString => EmptyString
  | String c s' =>
      match s' with
      | String c2 s'' =>
          if is_long_s c c2 then String "s" (casefold s'')
          else String (lower_char c) (casefold s')
      | EmptyString => String (lower_char c) EmptyString
      end
  end.

(** Equality of two texts without regard to case, in the usual sense of
    [s.casefold() == t.casefold()]. *)
Definition caseless_eq (s t : string) : bool :=
  String.eqb (casefold s) (casefold t).

(** [s.replace(old, new)] for one-character [old] and [new]. *)
Fixpoint replace (old new : ascii) (s : string) : string :=
  match s with
  | EmptyString => EmptyString
  | String c s' =>
      String (if Ascii.eqb c old then new else c) (replace old new s')
  end.

(** ** Numbers *)

Inductive float :=
| NaN
| PInf
| NInf
| Fin (q : Q).

Definition isna (x : float) : bool :=
  match x with NaN => true | _ => false end.

Definition notna (x : float) : bool := negb (isna x).

Definition is_inf (x : float) : bool :=
  match x with PInf | NInf => true | _ => false end.

Definition is_zero (x : float) : bool :=
  match x with Fin q => Qeq_bool q 0 | _ => false end.

Definition Qneg_bool (q : Q) : bool := negb (Qle_bool 0 q).

Definition fopp (x : float) : float :=
  match x with
  | NaN => NaN
  | PInf => NInf
  | NInf => PInf
  | Fin q => Fin (Qred (- q))
  end.

(** [x + y] *)
Definition fadd (x y : float) : float :=
  match x, y with
  | NaN, _ | _, NaN => NaN
  | PInf, NInf | NInf, PInf => NaN
  | PInf, _ | _, PInf => PInf
  | NInf, _ | _, NInf => NInf
  | Fin a, Fin b => Fin (Qred (a + b))
  end.

(** [x * y] *)
Definition fmul (x y : float) : float :=
  match x, y with
  | NaN, _ | _, NaN => NaN
  | Fin a, Fin b => Fin (Qred (a * b))
  | Fin a, i | i, Fin a =>
      if Qeq_bool a 0 then NaN else if Qneg_bool a then fopp i else i
  | PInf, PInf | NInf, NInf => PInf
  | PInf, NInf | NInf, PInf => NInf
  end.

(** [x / y] as numpy computes it: no exception on a zero divisor. *)
Definition fdiv (x y : float) : float :=
  match x, y with
  | NaN, _ | _, NaN => NaN
  | Fin a, Fin b =>
      if Qeq_bool b 0 then
        if Qeq_bool a 0 then NaN else if Qneg_bool a then NInf else PInf
      else Fin (Qred (a / b))
  | Fin _, _ => Fin 0
  | i, Fin b => if Qneg_bool b then fopp i else i
  | _, _ => NaN
  end.

(** Nearest integer, ties to the even one ([rint], and Python's
    one-argument [round]). *)
Definition rint (q : Q) : Z :=
  let n := Qnum q in
  let d := Zpos (Qden q) in
  let f := n / d in
  let r := n mod d in
  match 2 * r ?= d with
  | Lt => f
  | Gt => f + 1
  | Eq => if Z.even f then f else f + 1
  end.

(** [Series.round(decimals)]: scale, [rint], scale back. *)
Definition fround (decimals : nat) (x : float) : float :=
  match x with
  | Fin q =>
      let p := Z.pow 10 (Z.of_nat decimals) in
      Fin (Qred (inject_Z (rint (q * inject_Z p)) / inject_Z p))
  | _ => x
  end.

(** [Series.clip(upper=u)]: values above [u] become [u]; [NaN] stays. *)
Definition clip_upper (u : Q) (x : float) : float :=
  match x with
  | NaN => NaN
  | PInf => Fin u
  | NInf => NInf
  | Fin q => if Qle_bool q u then Fin q else Fin u
  end.

(** Python's [round(x)] on a float: an [int], or an exception. *)
Definition py_round (x : float) : result Z :=
  match x with
  | NaN => Raise ValueError
  | PInf | NInf => Raise OverflowError
  | Fin q => Ok (rint q)
  end.

(** [x <= y] on floats; false as soon as a [NaN] is involved. *)
Definition fle (x y : float) : bool :=
  match x, y with
  | NaN, _ | _, NaN => false
  | NInf, _ | _, PInf => true
  | Fin a, Fin b => Qle_bool a b
  | _, _ => false
  end.

(** ** Cells of a fetched row *)

(** A value as the database driver hands it over: [None], a [str], a
    number, or an [oracledb.LOB] whose [read()] would return [payload]. *)
Inductive cell :=
| Null
| Str (s : string)
| Num (x : float)
| Lob (payload : string).

Definition isinstance_str (c : cell) : bool :=
  match c with Str _ => true | _ => false end.

Definition isinstance_LOB (c : cell) : bool :=
  match c with Lob _ => true | _ => false end.

(** [c.read()] *)
Definition read (c : cell) : result cell :=
  match c with
  | Lob payload => Ok (Str payload)
  | _ => Raise AttributeError
  end.

(** [v.rstrip()] *)
Definition rstrip_method (v : cell) : result cell :=
  match v with
  | Str s => Ok (Str (rstrip s))
  | _ => Raise AttributeError
  end.

(** One element of the comprehension of [fix]:
    [(c.read() if isinstance(c, oracledb.LOB) else c).rstrip()
     if isinstance(c, str) else c] *)
Definition fix_cell (c : cell) : result cell :=
  if isinstance_str c then
    v <- (if isinstance_LOB c then read c else Ok c) ;;
    rstrip_method v
  else Ok c.

(** [fix(row)]; [fix] is a reserved word here, hence [fix_row]. *)
Definition fix_row (row : list cell) : result (list cell) := mapM fix_cell row.

(** [_fetch_df] on the rows of [cur.fetchall()]. *)
Definition _fetch_df (rows : list (list cell)) : result (list (list cell)) :=
  mapM fix_row rows.

(** What [fix_row] leaves in a cell, as a pure function. *)
Definition fix_value (c : cell) : cell :=
  match c with
  | Str s => Str (rstrip s)
  | _ => c
  end.

(** pandas [isna] on an object cell. *)
Definition cell_isna (c : cell) : bool :=
  match c with
  | Null => true
  | Num x => isna x
  | _ => false
  end.

(** ** Tables *)

(** A row of [SELECT id_atividade, turma, fase, nome_atividade, nota_maxima
    FROM atividades]; [nota_maxima] is a number column, NULL read as NaN. *)
Record atividade := {
  a_id_atividade : cell;
  a_turma : cell;
  a_fase : cell;
  a_nome_atividade : cell;
  a_nota_maxima : float
}.

(** A row of [SELECT id_atividade, id_aluno, rm, nome, nota, feedback,
    ir_alem FROM alunos]. *)
Record aluno := {
  g_id_atividade : cell;
  g_id_aluno : cell;
  g_rm : cell;
  g_nome : cell;
  g_nota : cell;
  g_feedback : cell;
  g_ir_alem : cell
}.

Definition atividade_cells (a : atividade) : list cell :=
  [a_id_atividade a; a_turma a; a_fase a; a_nome_atividade a;
   Num (a_nota_maxima a)].

Definition aluno_cells (g : aluno) : list cell :=
  [g_id_atividade g; g_id_aluno g; g_rm g; g_nome g; g_nota g;
   g_feedback g; g_ir_alem g].

Definition atividade_of_cells (cs : list cell) : result atividade :=
  match cs with
  | [i; t; f; n; Num m] => Ok (Build_atividade i t f n m)
  | _ => Raise ValueError
  end.

Definition aluno_of_cells (cs : list cell) : result aluno :=
  match cs with
  | [i; s; r; n; v; fb; ia] => Ok (Build_aluno i s r n v fb ia)
  | _ => Raise ValueError
  end.

(** The frame [atv] after the text clean-up. *)
Record atv_row := {
  atv_id_atividade : string;
  atv_turma : string;
  atv_fase : string;
  atv_nome_atividade : cell;
  atv_nota_maxima : float
}.

(** The frame [alu] after the text clean-up and [pd.to_numeric]. *)
Record alu_row := {
  alu_id_atividade : string;
  alu_id_aluno : cell;
  alu_rm : string;
  alu_nome : string;
  alu_nota : float;
  alu_feedback : cell;
  alu_ir_alem : cell
}.

(** A row of [alu.merge(atv, on="id_atividade", how="left")]; the columns
    of [atv] are null where no activity matches. *)
Record merged := {
  m_id_atividade : string;
  m_id_aluno : cell;
  m_rm : string;
  m_nome : string;
  m_nota : float;
  m_feedback : cell;
  m_ir_alem : cell;
  m_turma : cell;
  m_fase : cell;
  m_nome_atividade : cell;
  m_nota_maxima : float
}.

(** A row of the frame [dados] returned by [carregar_dados]. *)
Record dados := {
  id_atividade : string;
  id_aluno : cell;
  rm : string;
  nome : string;
  nota : float;
  feedback : cell;
  ir_alem : cell;
  turma : cell;
  fase : cell;
  nome_atividade : cell;
  nota_maxima : float;
  percentual : float
}.

(** ** Sorting *)

Fixpoint insert {A : Type} (leb : A -> A -> bool) (x : A) (l : list A) : list A :=
  match l with
  | [] => [x]
  | y :: l' => if leb x y then x :: l else y :: insert leb x l'
  end.

(** A stable sort; [sort_values] with several keys is stable, and with one
    key pandas leaves the order of equal keys unspecified. *)
Fixpoint sort {A : Type} (leb : A -> A -> bool) (l : list A) : list A :=
  match l with
  | [] => []
  | x :: l' => insert leb x (sort leb l')
  end.

(** Sort key of a text column: nulls (and cells that are not text) last. *)
Definition text_key (c : cell) : option string :=
  match c with Str s => Some s | _ => None end.

Definition key_compare (a b : option string) : comparison :=
  match a, b with
  | Some s, Some t => String.compare s t
  | Some _, None => Lt
  | None, Some _ => Gt
  | None, None => Eq
  end.

(** Row order of [sort_values(["fase", "nome_atividade"])]. *)
Definition dados_leb (x y : dados) : bool :=
  match key_compare (text_key (fase x)) (text_key (fase y)) with
  | Lt => true
  | Gt => false
  | Eq =>
      match key_compare (text_key (nome_atividade x))
                        (text_key (nome_atividade y)) with
      | Gt => false
      | _ => true
      end
  end.

(** First occurrences, in order of appearance (how pandas lists keys when
    no order is imposed). *)
Fixpoint unique {A : Type} (eqb : A -> A -> bool) (l : list A) : list A :=
  match l with
  | [] => []
  | x :: l' => x :: filter (fun y => negb (eqb x y)) (unique eqb l')
  end.

(** ** Library calls the loader relies on *)

(** Text conversions of Python, the driver and pandas that [main.py] calls
    and does not define: [str(x)] on a number, [str(lob)] on a LOB, and
    the float parser behind [pd.to_numeric] ([None]: not a number). *)
Class Runtime := {
  str_of_num : float -> string;
  str_of_lob : string -> string;
  to_double : string -> option float
}.

Section Pipeline.

Context {rt : Runtime}.

(** One element of [Series.astype(str)] on an object column. *)
Definition astype_str (c : cell) : string :=
  match c with
  | Null => "None"
  | Str s => s
  | Num x => str_of_num x
  | Lob payload => str_of_lob payload
  end.

(** [df[col].astype(str).str.strip()] on one element. *)
Definition limpar_texto (c : cell) : string := strip (astype_str c).

(** [pd.to_numeric(..., errors="coerce")] on one text element. *)
Definition to_numeric_coerce (s : string) : float :=
  match to_double s with
  | Some x => x
  | None => NaN
  end.

(** [pd.to_numeric(alu["nota"].astype(str).str.replace(",", "."),
    errors="coerce")] on one element. *)
Definition nota_to_numeric (c : cell) : float :=
  to_numeric_coerce (replace "," "." (astype_str c)).

Definition fetch_atividades (tabela : list atividade) : result (list atividade) :=
  rows <- _fetch_df (map atividade_cells tabela) ;;
  mapM atividade_of_cells rows.

Definition fetch_alunos (tabela : list aluno) : result (list aluno) :=
  rows <- _fetch_df (map aluno_cells tabela) ;;
  mapM aluno_of_cells rows.

(** The clean-up loop on [atv]: the columns [id_atividade], [turma] and
    [fase] are present. *)
Definition limpar_atv (a : atividade) : atv_row :=
  {| atv_id_atividade := limpar_texto (a_id_atividade a);
     atv_turma := limpar_texto (a_turma a);
     atv_fase := limpar_texto (a_fase a);
     atv_nome_atividade := a_nome_atividade a;
     atv_nota_maxima := a_nota_maxima a |}.

(** The clean-up loop on [alu] ([id_atividade], [rm], [nome]) followed by
    the conversion of [nota]. *)
Definition limpar_alu (g : aluno) : alu_row :=
  {| alu_id_atividade := limpar_texto (g_id_atividade g);
     alu_id_aluno := g_id_aluno g;
     alu_rm := limpar_texto (g_rm g);
     alu_nome := limpar_texto (g_nome g);
     alu_nota := nota_to_numeric (g_nota g);
     alu_feedback := g_feedback g;
     alu_ir_alem := g_ir_alem g |}.

Definition join (g : alu_row) (o : option atv_row) : merged :=
  {| m_id_atividade := alu_id_atividade g;
     m_id_aluno := alu_id_aluno g;
     m_rm := alu_rm g;
     m_nome := alu_nome g;
     m_nota := alu_nota g;
     m_feedback := alu_feedback g;
     m_ir_alem := alu_ir_alem g;
     m_turma := match o with Some a => Str (atv_turma a) | None => Null end;
     m_fase := match o with Some a => Str (atv_fase a) | None => Null end;
     m_nome_atividade :=
       match o with Some a => atv_nome_atividade a | None => Null end;
     m_nota_maxima :=
       match o with Some a => atv_nota_maxima a | None => NaN end |}.

Definition matches (g : alu_row) (atv : list atv_row) : list atv_row :=
  filter (fun a => String.eqb (atv_id_atividade a) (alu_id_atividade g)) atv.

(** [alu.merge(atv, on="id_atividade", how="left")] *)
Definition merge (alu : list alu_row) (atv : list atv_row) : list merged :=
  flat_map
    (fun g =>
       match matches g atv with
       | [] => [join g None]
       | ms => map (fun a => join g (Some a)) ms
       end)
    alu.

(** [((nota / nota_maxima) * 100).round(3).clip(upper=100)] *)
Definition percentual_de (nota nota_maxima : float) : float :=
  clip_upper (inject_Z 100)
    (fround 3 (fmul (fdiv nota nota_maxima) (Fin (inject_Z 100)))).

Definition com_percentual (m : merged) : dados :=
  {| id_atividade := m_id_atividade m;
     id_aluno := m_id_aluno m;
     rm := m_rm m;
     nome := m_nome m;
     nota := m_nota m;
     feedback := m_feedback m;
     ir_alem := m_ir_alem m;
     turma := m_turma m;
     fase := m_fase m;
     nome_atividade := m_nome_atividade m;
     nota_maxima := m_nota_maxima m;
     percentual := percentual_de (m_nota m) (m_nota_maxima m) |}.

(** The body of [carregar_dados], on the contents of the two tables. *)
Definition carregar_dados (atividades : list atividade)
    (alunos : list aluno) : result (list dados) :=
  atv <- fetch_atividades atividades ;;
  alu <- fetch_alunos alunos ;;
  let atv := map limpar_atv atv in
  let alu := map limpar_alu alu in
  let dados := merge alu atv in
  let dados := map com_percentual dados in
  Ok (sort dados_leb dados).

(** *** The memoised loader *)

(** The database and the entry [st.cache_data] keeps for
    [carregar_dados] (which takes no argument: one entry at most). *)
Record session := {
  db_atividades : list atividade;
  db_alunos : list aluno;
  cache : option (list dados)
}.

(** A call [carregar_dados()] through the decorator. *)
Definition carregar_dados_cached (s : session) : result (list dados) * session :=
  match cache s with
  | Some v => (Ok v, s)
  | None =>
      match carregar_dados (db_atividades s) (db_alunos s) with
      | Ok v =>
          (Ok v, {| db_atividades := db_atividades s;
                    db_alunos := db_alunos s;
                    cache := Some v |})
      | Raise e => (Raise e, s)
      end
  end.

(** [carregar_dados.clear()] *)
Definition clear (s : session) : session :=
  {| db_atividades := db_atividades s;
     db_alunos := db_alunos s;
     cache := None |}.

(** Somebody else changes the tables; the cache is not told. *)
Definition db_write (atividades : list atividade) (alunos : list aluno)
    (s : session) : session :=
  {| db_atividades := atividades;
     db_alunos := alunos;
     cache := cache s |}.

End Pipeline.

(** ** Aggregation *)

(** Equality of group keys: cells are compared by representation. *)
Definition Q_eqb (a b : Q) : bool :=
  Z.eqb (Qnum a) (Qnum b) && Pos.eqb (Qden a) (Qden b).

Definition float_eqb (x y : float) : bool :=
  match x, y with
  | NaN, NaN | PInf, PInf | NInf, NInf => true
  | Fin a, Fin b => Q_eqb a b
  | _, _ => false
  end.

Definition cell_eqb (c d : cell) : bool :=
  match c, d with
  | Null, Null => true
  | Str s, Str t => String.eqb s t
  | Num x, Num y => float_eqb x y
  | Lob p, Lob q => String.eqb p q
  | _, _ => false
  end.

(** Key of [groupby(["id_aluno", "rm", "nome"])]. *)
Definition chave : Type := cell * string * string.

Definition chave_eqb (k k' : chave) : bool :=
  let '(i, r, n) := k in
  let '(i', r', n') := k' in
  cell_eqb i i' && String.eqb r r' && String.eqb n n'.

Definition chave_de (d : dados) : chave := (id_aluno d, rm d, nome d).

(** [groupby] drops the rows whose key has a null ([dropna=True]); [rm]
    and [nome] are never null after the clean-up. *)
Definition chave_notna (k : chave) : bool :=
  let '(i, _, _) := k in negb (cell_isna i).

Definition chaves (df : list dados) : list chave :=
  unique chave_eqb (filter chave_notna (map chave_de df)).

(** The column [percentual] of the group of key [k]. *)
Definition grupo (df : list dados) (k : chave) : list float :=
  map percentual (filter (fun d => chave_eqb (chave_de d) k) df).

Definition count_isna (x : list float) : Z := Z.of_nat (List.length (filter isna x)).

Definition count_notna (x : list float) : Z := Z.of_nat (List.length (filter notna x)).

Definition len {A : Type} (x : list A) : Z := Z.of_nat (List.length x).

(** [round(100 * x.isna().sum() / len(x))] *)
Definition pct_faltas (x : list float) : result Z :=
  py_round (fdiv (Fin (inject_Z (100 * count_isna x))) (Fin (inject_Z (len x)))).

Definition fsum (x : list float) : float :=
  fold_left fadd x (Fin 0).

(** The aggregation ["mean"]: nulls are skipped; no value left gives NaN. *)
Definition mean (x : list float) : float :=
  match filter notna x with
  | [] => NaN
  | v => fdiv (fsum v) (Fin (inject_Z (len v)))
  end.

(** A row of the frame returned by [resumo_alunos]; the last five columns
    are shown as "RM", "Nome", "Media (%)", "Notas lancadas", "% sem nota". *)
Record resumo := {
  res_id_aluno : cell;
  res_rm : string;
  res_nome : string;
  media_pct : float;
  notas_lancadas : Z;
  pct_sem_nota : Z
}.

Definition agg (k : chave) (x : list float) : result resumo :=
  let '(i, r, n) := k in
  p <- pct_faltas x ;;
  Ok {| res_id_aluno := i;
        res_rm := r;
        res_nome := n;
        media_pct := mean x;
        notas_lancadas := count_notna x;
        pct_sem_nota := p |}.

(** [res["media_pct"] = res["media_pct"].round(1)] *)
Definition round_media (r : resumo) : resumo :=
  {| res_id_aluno := res_id_aluno r;
     res_rm := res_rm r;
     res_nome := res_nome r;
     media_pct := fround 1 (media_pct r);
     notas_lancadas := notas_lancadas r;
     pct_sem_nota := pct_sem_nota r |}.

Definition resumo_leb (a b : resumo) : bool := String.leb (res_nome a) (res_nome b).

Definition resumo_alunos (df : list dados) : result (list resumo) :=
  res <- mapM (fun k => agg k (grupo df k)) (chaves df) ;;
  Ok (sort resumo_leb (map round_media res)).

(** *** Ranking "Ir Alem" *)

(** One element of [Series.str.upper()]: null where the cell is not text. *)
Definition str_upper (c : cell) : cell :=
  match c with
  | Str s => Str (upper s)
  | _ => Null
  end.

(** One element of [series == s]. *)
Definition eq_str (c : cell) (s : string) : bool :=
  match c with
  | Str t => String.eqb t s
  | _ => false
  end.

(** The mask [df_turma["ir_alem"].str.upper() == "SIM"]. *)
Definition foi_alem (d : dados) : bool := eq_str (str_upper (ir_alem d)) "SIM".

Record posicao := {
  pos_rm : string;
  pos_nome : string;
  quantidade : Z
}.

Definition par_eqb (p q : string * string) : bool :=
  String.eqb (fst p) (fst q) && String.eqb (snd p) (snd q).

Definition par_de (d : dados) : string * string := (rm d, nome d).

(** [.groupby(["rm", "nome"])["ir_alem"].size()] for one key. *)
Definition tamanho (df : list dados) (p : string * string) : Z :=
  len (filter (fun d => par_eqb (par_de d) p) df).

Definition posicao_leb (a b : posicao) : bool := quantidade b <=? quantidade a.

Definition ranking (df_turma : list dados) : list posicao :=
  let sel := filter foi_alem df_turma in
  sort posicao_leb
    (map (fun p => {| pos_rm := fst p; pos_nome := snd p;
                      quantidade := tamanho sel p |})
         (unique par_eqb (map par_de sel))).

(** ** A reference runtime: plain decimal numerals *)

Definition digit_of (c : ascii) : option Z :=
  let n := N_of_ascii c in
  if ((48 <=? n) && (n <=? 57))%N then Some (Z.of_N (n - 48)) else None.

(** Reads the longest prefix of digits: its value after [acc], the number
    of digits read, and the rest of the text. *)
Fixpoint read_digits (s : string) (acc : Z) (count : nat) : Z * nat * string :=
  match s with
  | EmptyString => (acc, count, EmptyString)
  | String c s' =>
      match digit_of c with
      | Some d => read_digits s' (10 * acc + d) (S count)
      | None => (acc, count, s)
      end
  end.

(** Optional blanks, optional sign, digits with at most one point. *)
Definition decimal_to_double (s : string) : option float :=
  let s0 := strip s in
  let '(neg, s1) :=
    match s0 with
    | String "-" r => (true, r)
    | String "+" r => (false, r)
    | _ => (false, s0)
    end in
  let '(ip, ni, s2) := read_digits s1 0 0 in
  let '(fp, nf, s3) :=
    match s2 with
    | String "." r => read_digits r 0 0
    | _ => (0, 0%nat, s2)
    end in
  match s3 with
  | EmptyString =>
      if (ni + nf =? 0)%nat then None
      else
        let p := Z.pow 10 (Z.of_nat nf) in
        let m := ip * p + fp in
        Some (Fin (Qred (inject_Z (if neg then - m else m) / inject_Z p)))
  | _ => None
  end.

Definition digit_char (d : Z) : ascii := ascii_of_N (48 + Z.to_N d).

(** Decimals of [r / d] for [0 <= r < d], at most [fuel] of them. *)
Fixpoint frac_digits (fuel : nat) (r d : Z) : string :=
  match fuel with
  | O => EmptyString
  | S fuel' =>
      if r =? 0 then EmptyString
      else String (digit_char (10 * r / d)) (frac_digits fuel' (10 * r mod d) d)
  end.

Definition decimal_of_float (x : float) : string :=
  match x with
  | NaN => "nan"
  | PInf => "inf"
  | NInf => "-inf"
  | Fin q =>
      let n := Z.abs (Qnum q) in
      let d := Zpos (Qden q) in
      let f := frac_digits 17 (n mod d) d in
      (if Qnum q <? 0 then "-" else "")
        ++ DecimalString.NilZero.string_of_uint (N.to_uint (Z.to_N (n / d)))
        ++ "."
        ++ (match f with EmptyString => "0" | _ => f end)
  end.

Definition runtime_decimal : Runtime :=
  {| str_of_num := decimal_of_float;
     str_of_lob := fun payload => payload;
     to_double := decimal_to_double |}.

(** ** The loader without its monadic plumbing *)

Definition fix_atividade (a : atividade) : atividade :=
  {| a_id_atividade := fix_value (a_id_atividade a);
     a_turma := fix_value (a_turma a);
     a_fase := fix_value (a_fase a);
     a_nome_atividade := fix_value (a_nome_atividade a);
     a_nota_maxima := a_nota_maxima a |}.

Definition fix_aluno (g : aluno) : aluno :=
  {| g_id_atividade := fix_value (g_id_atividade g);
     g_id_aluno := fix_value (g_id_aluno g);
     g_rm := fix_value (g_rm g);
     g_nome := fix_value (g_nome g);
     g_nota := fix_value (g_nota g);
     g_feedback := fix_value (g_feedback g);
     g_ir_alem := fix_value (g_ir_alem g) |}.

Section Frames.

Context {rt : Runtime}.

(** The frames [atv] and [alu] as [merge] receives them. *)
Definition frame_atv (atividades : list atividade) : list atv_row :=
  map (fun a => limpar_atv (fix_atividade a)) atividades.

Definition frame_alu (alunos : list aluno) : list alu_row :=
  map (fun g => limpar_alu (fix_aluno g)) alunos.

(** The unsorted frame [dados]. *)
Definition dados_de (atividades : list atividade) (alunos : list aluno) : list dados :=
  map com_percentual (merge (frame_alu alunos) (frame_atv atividades)).

End Frames.

(** The seven columns of [alu] inside a row of [dados]. *)
Definition alu_de (d : dados) : alu_row :=
  {| alu_id_atividade := id_atividade d;
     alu_id_aluno := id_aluno d;
     alu_rm := rm d;
     alu_nome := nome d;
     alu_nota := nota d;
     alu_feedback := feedback d;
     alu_ir_alem := ir_alem d |}.

(** [w] is made of white space only. *)
Fixpoint all_space (w : string) : bool :=
  match w with
  | EmptyString => true
  | String c w' => is_space c && all_space w'
  end.

(** The last character of [s] is white space. *)
Fixpoint ends_with_space (s : string) : bool :=
  match s with
  | EmptyString => false
  | String c EmptyString => is_space c
  | String _ s' => ends_with_space s'
  end.

(** ** The summary without its monadic plumbing *)

(** The value [pct_faltas] returns on a group that is not empty. *)
Definition pct_faltas_value (x : list float) : Z :=
  rint (Qred (inject_Z (100 * count_isna x) / inject_Z (len x))).

Definition resumo_de (k : chave) (x : list float) : resumo :=
  let '(i, r, n) := k in
  {| res_id_aluno := i;
     res_rm := r;
     res_nome := n;
     media_pct := mean x;
     notas_lancadas := count_notna x;
     pct_sem_nota := pct_faltas_value x |}.

(** The summary row of the group of key [k] in [df]. *)
Definition linha_resumo (df : list dados) (k : chave) : resumo :=
  round_media (resumo_de k (grupo df k)).

(** ** The page *)

(** [dados["turma"].dropna()]: after the join the column holds text or
    nulls only. *)
Definition turma_dropna (df : list dados) : list string :=
  flat_map (fun d => match turma d with Str s => [s] | _ => [] end) df.

(** [turmas = sorted(dados["turma"].dropna().unique())] *)
Definition turmas (df : list dados) : list string :=
  sort String.leb (unique String.eqb (turma_dropna df)).

(** [df_turma = dados[dados["turma"] == turma_sel]] *)
Definition filtrar_turma (df : list dados) (turma_sel : string) : list dados :=
  filter (fun d => eq_str (turma d) turma_sel) df.

(** The label [f"{r.Nome} — {r.RM}"] of a summary line. *)
Definition rotulo (r : resumo) : string := res_nome r ++ " — " ++ res_rm r.

(** [m[k] = v] on a [dict] kept as its items in insertion order: a key
    already there keeps its place and takes the new value. *)
Fixpoint dict_set {V : Type} (k : string) (v : V) (m : list (string * V))
    : list (string * V) :=
  match m with
  | [] => [(k, v)]
  | (k', v') :: m' =>
      if String.eqb k' k then (k', v) :: m' else (k', v') :: dict_set k v m'
  end.

(** [m[k]]; [None] stands for [KeyError]. *)
Fixpoint dict_get {V : Type} (k : string) (m : list (string * V)) : option V :=
  match m with
  | [] => None
  | (k', v') :: m' => if String.eqb k' k then Some v' else dict_get k m'
  end.

(** [label_map = {f"{r.Nome} — {r.RM}": r.id_aluno
                  for r in resumo.itertuples()}] *)
Definition label_map (res : list resumo) : list (string * cell) :=
  fold_left (fun m r => dict_set (rotulo r) (res_id_aluno r) m) res [].

(** One element of [series == v] on an object column: a null equals
    nothing. *)
Definition eq_cell (c v : cell) : bool :=
  negb (cell_isna c) && negb (cell_isna v) && cell_eqb c v.

(** [df_aluno = df_turma[df_turma["id_aluno"] == id_aluno]
                .sort_values(["fase", "nome_atividade"])] *)
Definition filtrar_aluno (df_turma : list dados) (id : cell) : list dados :=
  sort dados_leb (filter (fun d => eq_cell (id_aluno d) id) df_turma).

(** A row of [tabela], the detail table of one student. *)
Record detalhe := {
  det_fase : cell;
  det_atividade : cell;
  det_nota_obtida : float;
  det_nota_maxima : float;
  det_pct : float;
  det_feedback : cell;
  det_ir_alem : cell
}.

(** The column selection and the [round(3)] of the three number columns. *)
Definition tabela (df_aluno : list dados) : list detalhe :=
  map (fun d =>
         {| det_fase := fase d;
            det_atividade := nome_atividade d;
            det_nota_obtida := fround 3 (nota d);
            det_nota_maxima := fround 3 (nota_maxima d);
            det_pct := fround 3 (percentual d);
            det_feedback := feedback d;
            det_ir_alem := ir_alem d |})
      df_aluno.

(** Sum of the column [Quantidade]. *)
Definition total (rk : list posicao) : Z :=
  fold_right (fun e acc => quantidade e + acc) 0 rk.

(** ** Sample tables *)

Definition ex_atividades : list atividade :=
  [ {| a_id_atividade := Str "A1 "; a_turma := Str "1TDS"; a_fase := Str "Fase 2";
       a_nome_atividade := Str "Prova"; a_nota_maxima := Fin 10 |};
    {| a_id_atividade := Str "A2"; a_turma := Str "1TDS"; a_fase := Str "Fase 1";
       a_nome_atividade := Str "Quiz"; a_nota_maxima := Fin 0 |} ].

Definition ex_alunos : list aluno :=
  [ {| g_id_atividade := Str "A1"; g_id_aluno := Str "S1"; g_rm := Str "RM1";
       g_nome := Str "Ana"; g_nota := Str "12,5"; g_feedback := Lob "muito bom ";
       g_ir_alem := Str "sim" |};
    {| g_id_atividade := Str "A2"; g_id_aluno := Str "S1"; g_rm := Str "RM1";
       g_nome := Str "Ana"; g_nota := Str "5"; g_feedback := Null;
       g_ir_alem := Str "Sim  " |};
    {| g_id_atividade := Str "A1"; g_id_aluno := Str "S2"; g_rm := Str "RM2";
       g_nome := Str "Bia"; g_nota := Null; g_feedback := Null;
       g_ir_alem := Null |};
    {| g_id_atividade := Str "A9"; g_id_aluno := Str "S2"; g_rm := Str "RM2";
       g_nome := Str "Bia"; g_nota := Str "-2.5"; g_feedback := Str "refazer";
       g_ir_alem := Str "nao" |} ].

(** The frame [carregar_dados] returns on the sample tables. *)
Definition ex_dados : list dados :=
  Eval vm_compute in
    match carregar_dados (rt := runtime_decimal) ex_atividades ex_alunos with
    | Ok ds => ds
    | Raise _ => []
    end.

(** Its first row: grade 5 on an activity whose maximum is 0. *)
Definition ex_quiz : dados :=
  {| id_atividade := "A2"; id_aluno := Str "S1"; rm := "RM1"; nome := "Ana";
     nota := Fin 5; feedback := Null; ir_alem := Str "Sim";
     turma := Str "1TDS"; fase := Str "Fase 1"; nome_atividade := Str "Quiz";
     nota_maxima := Fin 0; percentual := Fin (inject_Z 100) |}.

(** Its second row: grade 12,5 out of 10, clamped. *)
Definition ex_prova : dados :=
  {| id_atividade := "A1"; id_aluno := Str "S1"; rm := "RM1"; nome := "Ana";
     nota := Fin (25 # 2); feedback := Lob "muito bom "; ir_alem := Str "sim";
     turma := Str "1TDS"; fase := Str "Fase 2"; nome_atividade := Str "Prova";
     nota_maxima := Fin 10; percentual := Fin (inject_Z 100) |}.

(** A grade entry without a grade, and its row for an activity out of 10. *)
Definition ex_sem_nota : aluno :=
  {| g_id_atividade := Str "A1"; g_id_aluno := Str "S2"; g_rm := Str "RM2";
     g_nome := Str "Bia"; g_nota := Null; g_feedback := Null;
     g_ir_alem := Null |}.

Definition ex_linha_sem_nota : dados :=
  {| id_atividade := "A1"; id_aluno := Str "S2"; rm := "RM2"; nome := "Bia";
     nota := NaN; feedback := Null; ir_alem := Null;
     turma := Str "1TDS"; fase := Str "Fase 2"; nome_atividade := Str "Prova";
     nota_maxima := Fin 10; percentual := NaN |}.


(** A class in which the student S2 has that single record. *)
Definition ex_turma : list dados := [ex_quiz; ex_prova; ex_linha_sem_nota].

(** The activity A1 (its identifier padded, as a CHAR column gives it) and
    Ana's grade entry on it. *)
Definition ex_a1 : atividade :=
  {| a_id_atividade := Str "A1 "; a_turma := Str "1TDS"; a_fase := Str "Fase 2";
     a_nome_atividade := Str "Prova"; a_nota_maxima := Fin 10 |}.

Definition ex_g1 : aluno :=
  {| g_id_atividade := Str "A1"; g_id_aluno := Str "S1"; g_rm := Str "RM1";
     g_nome := Str "Ana"; g_nota := Str "12,5"; g_feedback := Lob "muito bom ";
     g_ir_alem := Str "sim" |}.

(** Ana's grade entry on the activity A2, its flag padded. *)
Definition ex_g2 : aluno :=
  {| g_id_atividade := Str "A2"; g_id_aluno := Str "S1"; g_rm := Str "RM1";
     g_nome := Str "Ana"; g_nota := Str "5"; g_feedback := Null;
     g_ir_alem := Str "Sim  " |}.

(** The last row of the sample frame: a grade on the unknown activity A9. *)
Definition ex_orfa : dados :=
  {| id_atividade := "A9"; id_aluno := Str "S2"; rm := "RM2"; nome := "Bia";
     nota := Fin (-5 # 2); feedback := Str "refazer"; ir_alem := Str "nao";
     turma := Null; fase := Null; nome_atividade := Null;
     nota_maxima := NaN; percentual := NaN |}.

(** The summary of the sample frame. *)
Definition ex_resumo : list resumo :=
  Eval vm_compute in
    match resumo_alunos ex_dados with
    | Ok res => res
    | Raise _ => []
    end.

(** The summary line of Ana. *)
Definition ex_linha_ana : resumo :=
  {| res_id_aluno := Str "S1"; res_rm := "RM1"; res_nome := "Ana";
     media_pct := Fin (inject_Z 100); notas_lancadas := 2; pct_sem_nota := 0 |}.

(** A row whose [id_aluno] is NULL in the table [alunos]. *)
Definition ex_sem_id : dados :=
  {| id_atividade := "A1"; id_aluno := Null; rm := "RM3"; nome := "Caio";
     nota := Fin 9; feedback := Null; ir_alem := Str "SIM";
     turma := Str "1TDS"; fase := Str "Fase 2"; nome_atividade := Str "Prova";
     nota_maxima := Fin 10; percentual := Fin 90 |}.

(** The key of a summary line. *)
Definition chave_resumo (r : resumo) : chave := (res_id_aluno r, res_rm r, res_nome r).

(** The key of a ranking line. *)
Definition par_posicao (e : posicao) : string * string := (pos_rm e, pos_nome e).

(** A fresh session on the sample tables: nothing cached yet. *)
Definition ex_session : session :=
  {| db_atividades := ex_atividades; db_alunos := ex_alunos; cache := None |}.

(** A row whose flag is "sım", written with the dotless i (U+0131). *)
Definition ex_dotless : dados :=
  {| id_atividade := "A1"; id_aluno := Str "S4"; rm := "RM4"; nome := "Davi";
     nota := Fin 8; feedback := Null; ir_alem := Str "sım";
     turma := Str "1TDS"; fase := Str "Fase 2"; nome_atividade := Str "Prova";
     nota_maxima := Fin 10; percentual := Fin 80 |}.

(** Two activities whose identifiers differ as fetched and coincide once
    cleaned, and one grade entry on them. *)
Definition ex_atividades_padded : list atividade :=
  [ {| a_id_atividade := Str "A1"; a_turma := Str "1TDS"; a_fase := Str "Fase 1";
       a_nome_atividade := Str "Prova"; a_nota_maxima := Fin 10 |};
    {| a_id_atividade := Str " A1"; a_turma := Str "2TDS"; a_fase := Str "Fase 1";
       a_nome_atividade := Str "Quiz"; a_nota_maxima := Fin 20 |} ].

Definition ex_um_aluno : list aluno :=
  [ {| g_id_atividade := Str "A1"; g_id_aluno := Str "S1"; g_rm := Str "RM1";
       g_nome := Str "Ana"; g_nota := Str "8"; g_feedback := Null;
       g_ir_alem := Null |} ].

(** The columns of a summary line that do not involve the average. *)
Definition contagens (r : resumo) : chave * Z * Z :=
  (chave_resumo r, notas_lancadas r, pct_sem_nota r).

(** The frame the loader returns on the padded activities. *)
Definition ex_dados_padded : list dados :=
  Eval vm_compute in
    match carregar_dados (rt := runtime_decimal) ex_atividades_padded ex_um_aluno with
    | Ok ds => ds
    | Raise _ => []
    end.

(** ** The average in binary64 *)

(** The aggregation ["mean"] and [round(1)] as pandas and numpy run them on
    IEEE 754 doubles, beside the exact [mean] above. *)
Definition b64 : Set := PrimFloat.float.

(** An integer as a double; every step is exact below 2^53. *)
Fixpoint b64_of_pos (p : positive) : b64 :=
  match p with
  | xH => PrimFloat.one
  | xO q => PrimFloat.mul PrimFloat.two (b64_of_pos q)
  | xI q => PrimFloat.add (PrimFloat.mul PrimFloat.two (b64_of_pos q)) PrimFloat.one
  end.

Definition b64_of_Z (n : Z) : b64 :=
  match n with
  | Z0 => PrimFloat.zero
  | Zpos p => b64_of_pos p
  | Zneg p => PrimFloat.opp (b64_of_pos p)
  end.

(** [rint] on a double: below 2^52 in magnitude, adding and removing 2^52
    rounds to the nearest integer, ties to even; above, the value is an
    integer already. *)
Definition rint_b64 (x : b64) : b64 :=
  let two52 := b64_of_Z 4503599627370496 in
  if PrimFloat.ltb (PrimFloat.abs x) two52 then
    if PrimFloat.leb (b64_of_Z 0) x
    then PrimFloat.sub (PrimFloat.add x two52) two52
    else PrimFloat.add (PrimFloat.sub x two52) two52
  else x.

(** [round(decimals)] for [p = 10 ** decimals]: scale, [rint], scale back. *)
Definition round_b64 (p : Z) (x : b64) : b64 :=
  PrimFloat.div (rint_b64 (PrimFloat.mul x (b64_of_Z p))) (b64_of_Z p).

(** The loop of the group mean: nulls are skipped and the values are added
    in row order with Kahan's compensation. *)
Fixpoint group_sum_b64 (x : list b64) (sumx comp : b64) (nobs : Z) : b64 * Z :=
  match x with
  | [] => (sumx, nobs)
  | v :: x' =>
      if PrimFloat.eqb v v then
        let y := PrimFloat.sub v comp in
        let t := PrimFloat.add sumx y in
        let c := PrimFloat.sub (PrimFloat.sub t sumx) y in
        let c := if PrimFloat.eqb c c then c else b64_of_Z 0 in
        group_sum_b64 x' t c (nobs + 1)
      else group_sum_b64 x' sumx comp nobs
  end.

Definition mean_b64 (x : list b64) : b64 :=
  let '(s, n) := group_sum_b64 x (b64_of_Z 0) (b64_of_Z 0) 0 in
  PrimFloat.div s (b64_of_Z n).

(** The same without compensation: a plain running sum in row order. *)
Definition mean_plain_b64 (x : list b64) : b64 :=
  PrimFloat.div (fold_left PrimFloat.add x (b64_of_Z 0)) (b64_of_Z (len x)).

(** The column "Media (%)" of one group: the mean, rounded to one decimal. *)
Definition media_pct_b64 (x : list b64) : b64 := round_b64 10 (mean_b64 x).

(** A percentage as [round(3)] leaves it: a number of thousandths over 1000. *)
Definition pct_b64 (milesimos : Z) : b64 :=
  PrimFloat.div (b64_of_Z milesimos) (b64_of_Z 1000).

(** The percentages 3.8, 8.8, 44.4 and 42.8 of one student, in two row orders. *)
Definition ex_milesimos : list Z := [3800; 8800; 44400; 42800].

Definition ex_milesimos_outra_ordem : list Z := [8800; 42800; 3800; 44400].

(** * Properties *)

(** ** The error monad *)

Lemma mapM_Ok {A B : Type} (f : A -> result B) (g : A -> B) (l : list A) :
  (forall a, In a l -> f a = Ok (g a)) -> mapM f l = Ok (map g l).
Proof.
  induction l as [|a l IH]; intros H; simpl.
  - reflexivity.
  - rewrite (H a (or_introl eq_refl)). simpl.
    rewrite IH by (intros b Hb; apply H; right; exact Hb).
    reflexivity.
Qed.

Lemma mapM_map {A B C : Type} (h : A -> B) (f : B -> result C) (l : list A) :
  mapM f (map h l) = mapM (fun a => f (h a)) l.
Proof.
  induction l as [|a l IH]; simpl; [reflexivity|].
  rewrite IH. reflexivity.
Qed.

(** ** Sorting *)

Lemma insert_perm {A : Type} (leb : A -> A -> bool) (x : A) (l : list A) :
  Permutation (insert leb x l) (x :: l).
Proof.
  induction l as [|y l IH]; simpl.
  - apply Permutation_refl.
  - destruct (leb x y).
    + apply Permutation_refl.
    + eapply perm_trans; [apply perm_skip, IH | apply perm_swap].
Qed.

Lemma sort_perm {A : Type} (leb : A -> A -> bool) (l : list A) :
  Permutation (sort leb l) l.
Proof.
  induction l as [|x l IH]; simpl.
  - apply perm_nil.
  - eapply perm_trans; [apply insert_perm | apply perm_skip, IH].
Qed.

Lemma sort_length {A : Type} (leb : A -> A -> bool) (l : list A) :
  List.length (sort leb l) = List.length l.
Proof. apply Permutation_length, sort_perm. Qed.

Lemma sort_In {A : Type} (leb : A -> A -> bool) (l : list A) (x : A) :
  In x (sort leb l) <-> In x l.
Proof.
  split; apply Permutation_in; [|apply Permutation_sym]; apply sort_perm.
Qed.

(** ** Row cleaner *)

Lemma fix_cell_value (c : cell) : fix_cell c = Ok (fix_value c).
Proof. destruct c; reflexivity. Qed.

Lemma fix_row_value (row : list cell) : fix_row row = Ok (map fix_value row).
Proof. apply mapM_Ok. intros c _. apply fix_cell_value. Qed.

Lemma fetch_df_value (rows : list (list cell)) :
  _fetch_df rows = Ok (map (map fix_value) rows).
Proof. apply mapM_Ok. intros r _. apply fix_row_value. Qed.

Lemma rstrip_split (s : string) :
  exists w, s = rstrip s ++ w /\ all_space w = true.
Proof.
  induction s as [|c s [w [Hs Hw]]]; simpl.
  - exists EmptyString. split; reflexivity.
  - destruct (rstrip s) as [|c' r] eqn:E.
    + simpl in Hs. subst w. destruct (is_space c) eqn:Hc.
      * exists (String c s). split; [reflexivity|]. simpl. now rewrite Hc, Hw.
      * exists s. split; [reflexivity|exact Hw].
    + exists w. split; [|exact Hw]. simpl. f_equal. exact Hs.
Qed.

Lemma rstrip_no_trailing_space (s : string) : ends_with_space (rstrip s) = false.
Proof.
  induction s as [|c s IH]; simpl.
  - reflexivity.
  - destruct (rstrip s) as [|c' r] eqn:E.
    + destruct (is_space c) eqn:Hc; simpl; [reflexivity|exact Hc].
    + exact IH.
Qed.

(** C2 (the code departs from it): the row cleaner is said to read every
    LOB field into a string, right-trim every string and pass every other
    value through.  The comprehension of [fix] tests [isinstance(c, str)]
    first, and a LOB is not a [str]: wherever a LOB sits in the row it comes
    out as the same unread LOB, while the other cells are right-trimmed
    when they are strings and unchanged otherwise. *)
Theorem fix_row_leaves_lob_unread (payload : string) (before after : list cell) :
  fix_row (before ++ Lob payload :: after)%list
  = Ok (map fix_value before ++ Lob payload :: map fix_value after)%list.
Proof.
  rewrite fix_row_value, map_app. reflexivity.
Qed.

(** ** Loader *)

Section Loader_properties.

Context {rt : Runtime}.

Lemma fetch_atividades_value (tabela : list atividade) :
  fetch_atividades tabela = Ok (map fix_atividade tabela).
Proof.
  unfold fetch_atividades. rewrite fetch_df_value. simpl.
  rewrite !mapM_map. apply mapM_Ok. intros a _. reflexivity.
Qed.

Lemma fetch_alunos_value (tabela : list aluno) :
  fetch_alunos tabela = Ok (map fix_aluno tabela).
Proof.
  unfold fetch_alunos. rewrite fetch_df_value. simpl.
  rewrite !mapM_map. apply mapM_Ok. intros g _. reflexivity.
Qed.

(** [carregar_dados] never raises on fetched tables. *)
Lemma carregar_dados_value (atividades : list atividade) (alunos : list aluno) :
  carregar_dados atividades alunos
  = Ok (sort dados_leb (dados_de atividades alunos)).
Proof.
  unfold carregar_dados.
  rewrite fetch_atividades_value, fetch_alunos_value. simpl.
  unfold dados_de, frame_alu, frame_atv. rewrite !map_map. reflexivity.
Qed.

Lemma In_carregar_dados (atividades : list atividade) (alunos : list aluno)
    (ds : list dados) (d : dados) :
  carregar_dados atividades alunos = Ok ds ->
  In d ds <-> In d (dados_de atividades alunos).
Proof.
  rewrite carregar_dados_value. intros H. injection H as <-. apply sort_In.
Qed.

(** *** The left join *)

Lemma alu_de_join (g : alu_row) (o : option atv_row) :
  alu_de (com_percentual (join g o)) = g.
Proof. destruct g; reflexivity. Qed.

Lemma matches_unique (g : alu_row) (atv : list atv_row) :
  NoDup (map atv_id_atividade atv) -> (List.length (matches g atv) <= 1)%nat.
Proof.
  unfold matches. induction atv as [|a atv IH]; intros Hnd; simpl.
  - lia.
  - inversion Hnd as [|x xs Hnotin Hnd']; subst.
    destruct (String.eqb (atv_id_atividade a) (alu_id_atividade g)) eqn:E.
    + apply String.eqb_eq in E. simpl.
      assert (Hnil : filter (fun a0 => String.eqb (atv_id_atividade a0)
                                         (alu_id_atividade g)) atv = []).
      { destruct (filter _ atv) as [|b l] eqn:F; [reflexivity|].
        exfalso. apply Hnotin.
        assert (Hb : In b (filter (fun a0 => String.eqb (atv_id_atividade a0)
                                               (alu_id_atividade g)) atv))
          by (rewrite F; left; reflexivity).
        apply filter_In in Hb. destruct Hb as [Hb1 Hb2].
        apply String.eqb_eq in Hb2. rewrite E, <- Hb2.
        apply in_map. exact Hb1. }
      rewrite Hnil. simpl. lia.
    + apply IH. exact Hnd'.
Qed.

Lemma merge_cons (g : alu_row) (alu : list alu_row) (atv : list atv_row) :
  merge (g :: alu) atv
  = (match matches g atv with
     | [] => [join g None]
     | ms => map (fun a => join g (Some a)) ms
     end ++ merge alu atv)%list.
Proof. reflexivity. Qed.

Lemma merge_alu_columns (alu : list alu_row) (atv : list atv_row) :
  NoDup (map atv_id_atividade atv) ->
  map (fun m => alu_de (com_percentual m)) (merge alu atv) = alu.
Proof.
  intros Hnd. induction alu as [|g alu IH].
  - reflexivity.
  - rewrite merge_cons, map_app, IH.
    pose proof (matches_unique g atv Hnd) as Hlen.
    destruct (matches g atv) as [|a [|b l]]; simpl in *.
    + now rewrite alu_de_join.
    + now rewrite alu_de_join.
    + lia.
Qed.

(** C3 (as amended): when the activity identifiers are pairwise distinct
    as the join compares them, that is once cleaned of the white space
    around them, [carregar_dados] returns exactly one row per grade entry:
    the [alu] columns of its rows are the grade entries, up to the order
    of the final sort, so there are as many rows as grade entries, matched
    by an activity or not. *)
Theorem left_join_keeps_every_grade (atividades : list atividade)
    (alunos : list aluno) :
  NoDup (map atv_id_atividade (frame_atv atividades)) ->
  exists ds,
    carregar_dados atividades alunos = Ok ds
    /\ Permutation (map alu_de ds) (frame_alu alunos)
    /\ List.length ds = List.length alunos.
Proof.
  intros Hnd. eexists. split; [apply carregar_dados_value|].
  assert (Hcols : map alu_de (dados_de atividades alunos) = frame_alu alunos).
  { unfold dados_de. rewrite map_map. apply merge_alu_columns. exact Hnd. }
  split.
  - rewrite <- Hcols. apply Permutation_map, sort_perm.
  - rewrite sort_length.
    rewrite <- (length_map alu_de), Hcols.
    unfold frame_alu. apply length_map.
Qed.

End Loader_properties.

(** ** Numbers *)

Lemma isna_fdiv (x y : float) :
  isna (fdiv x y)
  = isna x || isna y || (is_zero x && is_zero y) || (is_inf x && is_inf y).
Proof.
  destruct x as [| | |a], y as [| | |b]; simpl; try reflexivity;
    repeat match goal with
           | |- context [Qeq_bool ?q 0] => destruct (Qeq_bool q 0); simpl
           | |- context [Qneg_bool ?q] => destruct (Qneg_bool q); simpl
           end;
    reflexivity.
Qed.

Lemma isna_fmul_100 (x : float) : isna (fmul x (Fin (inject_Z 100))) = isna x.
Proof. destruct x; reflexivity. Qed.

Lemma isna_fround (decimals : nat) (x : float) : isna (fround decimals x) = isna x.
Proof. destruct x; reflexivity. Qed.

Lemma isna_clip_upper (u : Q) (x : float) : isna (clip_upper u x) = isna x.
Proof. destruct x as [| | |q]; simpl; try reflexivity. now destruct (Qle_bool q u). Qed.

Lemma clip_upper_le (u : Q) (x : float) :
  isna x = false -> fle (clip_upper u x) (Fin u) = true.
Proof.
  destruct x as [| | |q]; simpl; intros H; try discriminate; try reflexivity.
  - apply Qle_bool_iff, Qle_refl.
  - destruct (Qle_bool q u) eqn:E; simpl; [exact E|].
    apply Qle_bool_iff, Qle_refl.
Qed.

Lemma clip_upper_id (u : Q) (x : float) :
  fle x (Fin u) = true -> clip_upper u x = x.
Proof.
  destruct x as [| | |q]; simpl; intros H; try discriminate; try reflexivity.
  now rewrite H.
Qed.

Lemma isna_percentual_de (n m : float) :
  isna (percentual_de n m)
  = isna n || isna m || (is_zero n && is_zero m) || (is_inf n && is_inf m).
Proof.
  unfold percentual_de.
  rewrite isna_clip_upper, isna_fround, isna_fmul_100. apply isna_fdiv.
Qed.

(** ** Percentage *)

Section Percentage_properties.

Context {rt : Runtime}.

Lemma In_dados_de (atividades : list atividade) (alunos : list aluno) (r : dados) :
  In r (dados_de atividades alunos) ->
  percentual r = percentual_de (nota r) (nota_maxima r).
Proof.
  unfold dados_de. intros H. apply in_map_iff in H.
  destruct H as [m [<- _]]. reflexivity.
Qed.

(** C1 (as amended): in every row [r] that [carregar_dados] returns,
    [percentual] is [round(nota / nota_maxima * 100, 3)] clamped from above
    at 100.  It is null exactly when [nota] is null, or [nota_maxima] is
    null, or both are zero, or both are infinite; a zero [nota_maxima] with
    a non-zero [nota] gives an infinite quotient, not a null.  A value that
    is not null is at most 100, and every rounded value that is at most 100,
    negative ones included, is kept as it is: there is no lower clamp. *)
Theorem percentual_null_and_clamp (atividades : list atividade)
    (alunos : list aluno) (ds : list dados) (r : dados) :
  carregar_dados atividades alunos = Ok ds ->
  In r ds ->
  let raw := fround 3 (fmul (fdiv (nota r) (nota_maxima r)) (Fin (inject_Z 100))) in
  percentual r = clip_upper (inject_Z 100) raw
  /\ (isna (percentual r) = true <->
      isna (nota r) = true \/ isna (nota_maxima r) = true
      \/ (is_zero (nota r) = true /\ is_zero (nota_maxima r) = true)
      \/ (is_inf (nota r) = true /\ is_inf (nota_maxima r) = true))
  /\ (isna (percentual r) = false ->
      fle (percentual r) (Fin (inject_Z 100)) = true)
  /\ (fle raw (Fin (inject_Z 100)) = true -> percentual r = raw).
Proof.
  intros Hload Hin raw.
  apply (In_carregar_dados _ _ _ _ Hload) in Hin.
  apply In_dados_de in Hin.
  assert (Hp : percentual r = clip_upper (inject_Z 100) raw) by exact Hin.
  split; [exact Hp|]. split; [|split].
  - rewrite Hin, isna_percentual_de.
    rewrite !orb_true_iff, !andb_true_iff. tauto.
  - intros Hna. rewrite Hp in *. apply clip_upper_le.
    now rewrite isna_clip_upper in Hna.
  - intros Hle. rewrite Hp. apply clip_upper_id. exact Hle.
Qed.

End Percentage_properties.

(** C1, a row the code returns: the claim as written fails when
    [nota_maxima] is zero and [nota] is not.  Grade 5 on the activity A2,
    whose maximum is 0, gets the percentage 100, which is not null. *)
Lemma percentual_zero_max_not_null :
  carregar_dados (rt := runtime_decimal) ex_atividades ex_alunos = Ok ex_dados
  /\ In ex_quiz ex_dados
  /\ nota ex_quiz = Fin 5 /\ nota_maxima ex_quiz = Fin 0
  /\ percentual ex_quiz = Fin (inject_Z 100)
  /\ ~ (isna (percentual ex_quiz) = true <->
        (isna (nota ex_quiz) = true \/ isna (nota_maxima ex_quiz) = true
         \/ is_zero (nota_maxima ex_quiz) = true)).
Proof.
  split; [vm_compute; reflexivity|].
  split; [left; reflexivity|].
  repeat split; try reflexivity.
  intros [_ H]. discriminate H. right. right. reflexivity.
Qed.

(** The amended C1 on the sample tables: the row of the grade 12,5 out of
    10 holds 100, the clamped value of 125. *)
Lemma percentual_null_and_clamp_witness :
  carregar_dados (rt := runtime_decimal) ex_atividades ex_alunos = Ok ex_dados
  /\ In ex_prova ex_dados
  /\ (let raw := fround 3 (fmul (fdiv (nota ex_prova) (nota_maxima ex_prova))
                               (Fin (inject_Z 100))) in
      percentual ex_prova = clip_upper (inject_Z 100) raw
      /\ (isna (percentual ex_prova) = true <->
          isna (nota ex_prova) = true \/ isna (nota_maxima ex_prova) = true
          \/ (is_zero (nota ex_prova) = true /\ is_zero (nota_maxima ex_prova) = true)
          \/ (is_inf (nota ex_prova) = true /\ is_inf (nota_maxima ex_prova) = true))
      /\ (isna (percentual ex_prova) = false ->
          fle (percentual ex_prova) (Fin (inject_Z 100)) = true)
      /\ (fle raw (Fin (inject_Z 100)) = true -> percentual ex_prova = raw)).
Proof.
  split; [vm_compute; reflexivity|].
  split; [right; left; reflexivity|].
  apply (percentual_null_and_clamp (rt := runtime_decimal)
           ex_atividades ex_alunos ex_dados ex_prova).
  - vm_compute. reflexivity.
  - right. left. reflexivity.
Defined.

(** ** Score parsing *)

Lemma replace_app (old new : ascii) (s t : string) :
  replace old new (s ++ t) = replace old new s ++ replace old new t.
Proof.
  induction s as [|c s IH]; simpl; [reflexivity|]. now rewrite IH.
Qed.

Lemma replace_comma_point (p q : string) :
  replace "," "." (p ++ "," ++ q) = replace "," "." (p ++ "." ++ q).
Proof.
  rewrite !replace_app. reflexivity.
Qed.

(** C4: a comma is read as the decimal point, and what the parser rejects
    becomes null.  Whatever stands before and after the separator, the text
    with a comma is converted to the same number as the text with a point;
    and a cell whose text (after the replacement) the parser rejects is
    converted to NaN, [nota_to_numeric] being a total function. *)
Theorem nota_comma_as_point {rt : Runtime} (p q : string) (c : cell) :
  nota_to_numeric (Str (p ++ "," ++ q)) = nota_to_numeric (Str (p ++ "." ++ q))
  /\ (to_double (replace "," "." (astype_str c)) = None ->
      nota_to_numeric c = NaN).
Proof.
  split.
  - unfold nota_to_numeric, astype_str. now rewrite replace_comma_point.
  - intros H. unfold nota_to_numeric, to_numeric_coerce. now rewrite H.
Qed.

(** C4 with the decimal reference parser: "8,5" and "8.5" both give 8.5,
    and "oito" gives NaN. *)
Lemma nota_comma_as_point_witness :
  to_double (Runtime := runtime_decimal)
    (replace "," "." (astype_str (rt := runtime_decimal) (Str "oito"))) = None
  /\ nota_to_numeric (rt := runtime_decimal) (Str "8,5") = Fin (17 # 2)
  /\ nota_to_numeric (rt := runtime_decimal) (Str "8.5") = Fin (17 # 2)
  /\ nota_to_numeric (rt := runtime_decimal) (Str ("8" ++ "," ++ "5"))
     = nota_to_numeric (rt := runtime_decimal) (Str ("8" ++ "." ++ "5"))
  /\ nota_to_numeric (rt := runtime_decimal) (Str "oito") = NaN.
Proof.
  split; [reflexivity|].
  split; [reflexivity|].
  split; [reflexivity|].
  pose proof (nota_comma_as_point (rt := runtime_decimal) "8" "5" (Str "oito"))
    as [Hsame Hnull].
  split; [exact Hsame | apply Hnull; reflexivity].
Defined.

(** ** The memoised loader *)

(** C6: two calls in a row, with no [clear] in between, return the same
    frame; after [clear] the next call runs the queries again and returns
    what the tables hold then, whatever was written to them meanwhile. *)
Theorem cache_contract {rt : Runtime} (s : session)
    (atividades : list atividade) (alunos : list aluno) :
  let '(r1, s1) := carregar_dados_cached s in
  let '(r2, s2) := carregar_dados_cached s1 in
  r1 = r2
  /\ fst (carregar_dados_cached (clear (db_write atividades alunos s2)))
     = carregar_dados atividades alunos.
Proof.
  unfold carregar_dados_cached.
  destruct (cache s) as [v|] eqn:Hc.
  - rewrite Hc. split; [reflexivity|]. simpl.
    now destruct (carregar_dados atividades alunos).
  - destruct (carregar_dados (db_atividades s) (db_alunos s)) as [v|e] eqn:Hl.
    + simpl. split; [reflexivity|].
      now destruct (carregar_dados atividades alunos).
    + rewrite Hc, Hl. split; [reflexivity|]. simpl.
      now destruct (carregar_dados atividades alunos).
Qed.

(** A call that hits the cache does not look at the tables. *)
Lemma cached_call_is_stale {rt : Runtime} (s : session) (v : list dados)
    (atividades : list atividade) (alunos : list aluno) :
  cache s = Some v ->
  fst (carregar_dados_cached (db_write atividades alunos s)) = Ok v.
Proof. intros H. unfold carregar_dados_cached. simpl. now rewrite H. Qed.

(** ** Empty input *)

(** C9: with no grade entry, whatever the activities, [carregar_dados]
    returns an empty frame without raising; on an empty frame
    [resumo_alunos] returns an empty summary without raising and the
    ranking is empty. *)
Theorem empty_in_empty_out {rt : Runtime} (atividades : list atividade) :
  carregar_dados atividades [] = Ok []
  /\ resumo_alunos [] = Ok []
  /\ ranking [] = [].
Proof.
  split; [|split; reflexivity].
  rewrite carregar_dados_value. reflexivity.
Qed.

(** ** Rounding of the share of missing grades *)


Lemma len_pos {A : Type} (x : list A) : x <> [] -> 0 < len x.
Proof. destruct x; [congruence|]. unfold len. simpl. lia. Qed.

Lemma Qeq_bool_inject_Z_pos (n : Z) : 0 < n -> Qeq_bool (inject_Z n) 0 = false.
Proof.
  intros H. destruct (Qeq_bool (inject_Z n) 0) eqn:E; [|reflexivity].
  apply Qeq_bool_iff in E. unfold Qeq in E. simpl in E. lia.
Qed.

(** On a group that is not empty [pct_faltas] returns, and returns this. *)
Lemma pct_faltas_Ok (x : list float) :
  x <> [] -> pct_faltas x = Ok (pct_faltas_value x).
Proof.
  intros H. unfold pct_faltas, pct_faltas_value. simpl.
  rewrite (Qeq_bool_inject_Z_pos _ (len_pos x H)). reflexivity.
Qed.



(** ** Keys and first occurrences *)

Lemma Q_eqb_eq (a b : Q) : Q_eqb a b = true <-> a = b.
Proof.
  destruct a as [n d], b as [n' d']. unfold Q_eqb. simpl.
  rewrite andb_true_iff, Z.eqb_eq, Pos.eqb_eq. split.
  - intros [-> ->]. reflexivity.
  - intros H. injection H as -> ->. split; reflexivity.
Qed.

Lemma float_eqb_eq (x y : float) : float_eqb x y = true <-> x = y.
Proof.
  destruct x, y; simpl; try (split; [discriminate | discriminate]);
    try (split; reflexivity).
  rewrite Q_eqb_eq. split; [intros ->; reflexivity | intros H; now injection H].
Qed.

Lemma cell_eqb_eq (c d : cell) : cell_eqb c d = true <-> c = d.
Proof.
  destruct c, d; simpl; try (split; [discriminate | discriminate]);
    try (split; reflexivity).
  - rewrite String.eqb_eq. split; [intros ->; reflexivity | intros H; now injection H].
  - rewrite float_eqb_eq. split; [intros ->; reflexivity | intros H; now injection H].
  - rewrite String.eqb_eq. split; [intros ->; reflexivity | intros H; now injection H].
Qed.

Lemma chave_eqb_eq (k k' : chave) : chave_eqb k k' = true <-> k = k'.
Proof.
  destruct k as [[i r] n], k' as [[i' r'] n']. unfold chave_eqb.
  rewrite !andb_true_iff, cell_eqb_eq, !String.eqb_eq. split.
  - intros [[-> ->] ->]. reflexivity.
  - intros H. injection H as -> -> ->. repeat split.
Qed.

Lemma par_eqb_eq (p q : string * string) : par_eqb p q = true <-> p = q.
Proof.
  destruct p as [a b], q as [a' b']. unfold par_eqb. simpl.
  rewrite andb_true_iff, !String.eqb_eq. split.
  - intros [-> ->]. reflexivity.
  - intros H. injection H as -> ->. split; reflexivity.
Qed.

Section Unique.

Context {A : Type} (eqb : A -> A -> bool).
Hypothesis eqb_eq : forall x y, eqb x y = true <-> x = y.

Lemma unique_In (x : A) (l : list A) : In x (unique eqb l) <-> In x l.
Proof.
  induction l as [|a l IH]; simpl; [tauto|].
  rewrite filter_In, IH. split.
  - intros [H|[H _]]; [left|right]; assumption.
  - intros [H|H]; [left; exact H|].
    destruct (eqb a x) eqn:E.
    + left. now apply eqb_eq.
    + right. split; [exact H | reflexivity].
Qed.

Lemma unique_NoDup (l : list A) : NoDup (unique eqb l).
Proof.
  induction l as [|a l IH]; simpl; constructor.
  - rewrite filter_In. intros [_ H].
    assert (E : eqb a a = true) by now apply eqb_eq.
    rewrite E in H. discriminate.
  - apply NoDup_filter, IH.
Qed.

End Unique.

(** ** Ranking *)

Lemma upper_char_S (c : ascii) :
  upper_char c = "S"%char <-> c = "S"%char \/ c = "s"%char.
Proof.
  destruct c as [[] [] [] [] [] [] [] []]; vm_compute;
    (split; [intros H; first [discriminate H | now left | now right]
            | intros [H|H]; first [discriminate H | reflexivity]]).
Qed.

Lemma upper_char_I (c : ascii) :
  upper_char c = "I"%char <-> c = "I"%char \/ c = "i"%char.
Proof.
  destruct c as [[] [] [] [] [] [] [] []]; vm_compute;
    (split; [intros H; first [discriminate H | now left | now right]
            | intros [H|H]; first [discriminate H | reflexivity]]).
Qed.

Lemma upper_char_M (c : ascii) :
  upper_char c = "M"%char <-> c = "M"%char \/ c = "m"%char.
Proof.
  destruct c as [[] [] [] [] [] [] [] []]; vm_compute;
    (split; [intros H; first [discriminate H | now left | now right]
            | intros [H|H]; first [discriminate H | reflexivity]]).
Qed.

Lemma upper_nil (s : string) : upper s = EmptyString -> s = EmptyString.
Proof.
  destruct s as [|c [|c2 s'']]; simpl; try discriminate; [reflexivity|].
  destruct (is_dotless_i c c2); [discriminate|].
  destruct (is_long_s c c2); discriminate.
Qed.

Lemma is_dotless_i_eq (c c2 : ascii) :
  is_dotless_i c c2 = true -> c = "196"%char /\ c2 = "177"%char.
Proof.
  unfold is_dotless_i. rewrite andb_true_iff, !Ascii.eqb_eq. tauto.
Qed.

Lemma is_long_s_eq (c c2 : ascii) :
  is_long_s c c2 = true -> c = "197"%char /\ c2 = "191"%char.
Proof.
  unfold is_long_s. rewrite andb_true_iff, !Ascii.eqb_eq. tauto.
Qed.

(** The first letter of an upper-cased text and where it comes from. *)
Lemma upper_head (s : string) (h : ascii) (t : string) :
  upper s = String h t ->
  (exists c s', s = String c s' /\ upper_char c = h /\ upper s' = t)
  \/ (exists s'', s = String "196" (String "177" s'')
                  /\ h = "I"%char /\ upper s'' = t)
  \/ (exists s'', s = String "197" (String "191" s'')
                  /\ h = "S"%char /\ upper s'' = t).
Proof.
  destruct s as [|c [|c2 s'']]; [discriminate | |].
  - simpl. intros H. injection H as <- <-. left. exists c, EmptyString. auto.
  - change (upper (String c (String c2 s'')))
      with (if is_dotless_i c c2 then String "I" (upper s'')
            else if is_long_s c c2 then String "S" (upper s'')
            else String (upper_char c) (upper (String c2 s''))).
    destruct (is_dotless_i c c2) eqn:Ei.
    + apply is_dotless_i_eq in Ei. destruct Ei as [-> ->].
      intros H. injection H as <- <-. right. left. exists s''. auto.
    + destruct (is_long_s c c2) eqn:El.
      * apply is_long_s_eq in El. destruct El as [-> ->].
        intros H. injection H as <- <-. right. right. exists s''. auto.
      * intros H. injection H as <- <-. left. exists c, (String c2 s''). auto.
Qed.

(** The texts whose upper case is "SIM": s or long s, then i or dotless
    i, then m, each in either case where it has two. *)
Lemma upper_SIM (s : string) :
  upper s = "SIM"
  <-> In s ["SIM"; "SIm"; "SiM"; "Sim"; "sIM"; "sIm"; "siM"; "sim";
            "SıM"; "Sım"; "sıM"; "sım";
            "ſIM"; "ſIm"; "ſiM"; "ſim"; "ſıM"; "ſım"].
Proof.
  split.
  - intros H.
    apply upper_head in H.
    destruct H as [[a [s1 [-> [Ha H]]]] | [[s1 [-> [Ha H]]] | [s1 [-> [_ H]]]]];
      try discriminate Ha;
      try (apply upper_char_S in Ha);
      apply upper_head in H;
      destruct H as [[b [s2 [-> [Hb H]]]] | [[s2 [-> [_ H]]] | [s2 [-> [Hb H]]]]];
      try discriminate Hb;
      try (apply upper_char_I in Hb);
      apply upper_head in H;
      destruct H as [[c [s3 [-> [Hc H]]]] | [[s3 [-> [Hc H]]] | [s3 [-> [Hc H]]]]];
      try discriminate Hc;
      apply upper_char_M in Hc; apply upper_nil in H; subst s3;
      repeat match goal with
             | H : _ \/ _ |- _ => destruct H as [-> | ->]
             end;
      simpl; tauto.
  - simpl. intros H.
    repeat (destruct H as [<- | H]; [reflexivity|]). contradiction.
Qed.

Lemma lower_char_s (c : ascii) :
  lower_char c = "s"%char <-> c = "S"%char \/ c = "s"%char.
Proof.
  destruct c as [[] [] [] [] [] [] [] []]; vm_compute;
    (split; [intros H; first [discriminate H | now left | now right]
            | intros [H|H]; first [discriminate H | reflexivity]]).
Qed.

Lemma lower_char_i (c : ascii) :
  lower_char c = "i"%char <-> c = "I"%char \/ c = "i"%char.
Proof.
  destruct c as [[] [] [] [] [] [] [] []]; vm_compute;
    (split; [intros H; first [discriminate H | now left | now right]
            | intros [H|H]; first [discriminate H | reflexivity]]).
Qed.

Lemma lower_char_m (c : ascii) :
  lower_char c = "m"%char <-> c = "M"%char \/ c = "m"%char.
Proof.
  destruct c as [[] [] [] [] [] [] [] []]; vm_compute;
    (split; [intros H; first [discriminate H | now left | now right]
            | intros [H|H]; first [discriminate H | reflexivity]]).
Qed.

Lemma casefold_nil (s : string) : casefold s = EmptyString -> s = EmptyString.
Proof.
  destruct s as [|c [|c2 s'']]; simpl; try discriminate; [reflexivity|].
  destruct (is_long_s c c2); discriminate.
Qed.

Lemma casefold_head (s : string) (h : ascii) (t : string) :
  casefold s = String h t ->
  (exists c s', s = String c s' /\ lower_char c = h /\ casefold s' = t)
  \/ (exists s'', s = String "197" (String "191" s'')
                  /\ h = "s"%char /\ casefold s'' = t).
Proof.
  destruct s as [|c [|c2 s'']]; [discriminate | |].
  - simpl. intros H. injection H as <- <-. left. exists c, EmptyString. auto.
  - change (casefold (String c (String c2 s'')))
      with (if is_long_s c c2 then String "s" (casefold s'')
            else String (lower_char c) (casefold (String c2 s''))).
    destruct (is_long_s c c2) eqn:El.
    + apply is_long_s_eq in El. destruct El as [-> ->].
      intros H. injection H as <- <-. right. exists s''. auto.
    + intros H. injection H as <- <-. left. exists c, (String c2 s''). auto.
Qed.

(** The texts equal to "SIM" without regard to case: no dotless i. *)
Lemma caseless_SIM (s : string) :
  caseless_eq s "SIM" = true
  <-> In s ["SIM"; "SIm"; "SiM"; "Sim"; "sIM"; "sIm"; "siM"; "sim";
            "ſIM"; "ſIm"; "ſiM"; "ſim"].
Proof.
  unfold caseless_eq. rewrite String.eqb_eq.
  change (casefold "SIM") with "sim". split.
  - intros H.
    apply casefold_head in H.
    destruct H as [[a [s1 [-> [Ha H]]]] | [s1 [-> [_ H]]]];
      try (apply lower_char_s in Ha);
      apply casefold_head in H;
      destruct H as [[b [s2 [-> [Hb H]]]] | [s2 [-> [Hb H]]]];
      try discriminate Hb;
      apply lower_char_i in Hb;
      apply casefold_head in H;
      destruct H as [[c [s3 [-> [Hc H]]]] | [s3 [-> [Hc H]]]];
      try discriminate Hc;
      apply lower_char_m in Hc; apply casefold_nil in H; subst s3;
      repeat match goal with
             | H : _ \/ _ |- _ => destruct H as [-> | ->]
             end;
      simpl; tauto.
  - simpl. intros H.
    repeat (destruct H as [<- | H]; [reflexivity|]). contradiction.
Qed.

Lemma foi_alem_iff (d : dados) :
  foi_alem d = true <-> exists s, ir_alem d = Str s /\ upper s = "SIM".
Proof.
  unfold foi_alem. destruct (ir_alem d) as [|s|x|p]; simpl.
  - split; [discriminate | intros [s [H _]]; discriminate].
  - rewrite String.eqb_eq. split.
    + intros H. exists s. split; [reflexivity | exact H].
    + intros [t [Ht Hu]]. injection Ht as <-. exact Hu.
  - split; [discriminate | intros [s [H _]]; discriminate].
  - split; [discriminate | intros [s [H _]]; discriminate].
Qed.

Lemma tamanho_pos (df : list dados) (p : string * string) :
  0 < tamanho df p <-> In p (map par_de df).
Proof.
  unfold tamanho, len. rewrite in_map_iff. split.
  - destruct (filter _ df) as [|d l] eqn:F; simpl; [lia|]. intros _.
    assert (Hd : In d (filter (fun d0 => par_eqb (par_de d0) p) df))
      by (rewrite F; left; reflexivity).
    apply filter_In in Hd. destruct Hd as [Hd He].
    exists d. split; [now apply par_eqb_eq | exact Hd].
  - intros [d [Hp Hd]].
    assert (Hin : In d (filter (fun d0 => par_eqb (par_de d0) p) df)).
    { apply filter_In. split; [exact Hd | now apply par_eqb_eq]. }
    destruct (filter _ df); [contradiction | simpl; lia].
Qed.

(** C5 (as amended): the ranking has a line for a student exactly when
    some record of that student has [ir_alem] equal to "SIM" once uppercased
    by [str.upper], and the line counts those records only.  A record passes
    the mask exactly when its [ir_alem] is a text spelt s or long s, then i
    or dotless i, then m, in any mix of cases: a null, an empty text or any
    other value is left out.  Every text equal to "SIM" without regard to
    case passes; the spellings with the dotless i pass as well, although
    they are not equal to "SIM" without regard to case.  Two records of one
    student with "sim" and "Sim" make one line with the count 2. *)
Theorem ranking_counts_sim (df : list dados) (e : posicao) (d d1 d2 : dados)
    (s : string) :
  (In e (ranking df) <->
   quantidade e = tamanho (filter foi_alem df) (pos_rm e, pos_nome e)
   /\ 0 < quantidade e)
  /\ (foi_alem d = true <->
      exists t, ir_alem d = Str t
                /\ In t ["SIM"; "SIm"; "SiM"; "Sim"; "sIM"; "sIm"; "siM"; "sim";
                         "SıM"; "Sım"; "sıM"; "sım";
                         "ſIM"; "ſIm"; "ſiM"; "ſim"; "ſıM"; "ſım"])
  /\ (caseless_eq s "SIM" = true -> upper s = "SIM")
  /\ (par_de d1 = par_de d2 ->
      ir_alem d1 = Str "sim" ->
      ir_alem d2 = Str "Sim" ->
      ranking [d1; d2]
      = [{| pos_rm := rm d1; pos_nome := nome d1; quantidade := 2 |}]).
Proof.
  split; [|split; [|split]].
  - unfold ranking. rewrite sort_In, in_map_iff. split.
    + intros [p [<- Hp]]. simpl.
      apply (proj1 (unique_In par_eqb par_eqb_eq _ _)) in Hp.
      rewrite <- surjective_pairing. split; [reflexivity|].
      now apply tamanho_pos.
    + intros [Hq Hpos]. exists (pos_rm e, pos_nome e). split.
      * destruct e as [r n q]. simpl in *. now subst q.
      * apply (proj2 (unique_In par_eqb par_eqb_eq _ _)). apply tamanho_pos.
        rewrite <- Hq. exact Hpos.
  - rewrite foi_alem_iff. split; intros [t [Ht Hu]]; exists t;
      (split; [exact Ht | now apply upper_SIM]).
  - intros H. apply caseless_SIM in H. simpl in H.
    repeat (destruct H as [<- | H]; [reflexivity|]). contradiction.
  - intros Hpar H1 H2. unfold ranking. simpl. unfold foi_alem.
    rewrite H1, H2. simpl. rewrite <- Hpar.
    assert (E : par_eqb (par_de d1) (par_de d1) = true) by now apply par_eqb_eq.
    rewrite E. simpl. unfold tamanho. simpl. rewrite <- Hpar, E. reflexivity.
Qed.

(** C5, a value the claim as written leaves out and the code counts: the
    flag "sım", written with the dotless i, is not equal to "SIM" without
    regard to case, yet its upper case is "SIM", so the record passes the
    mask and gets a line in the ranking. *)
Lemma dotless_sim_is_counted :
  ir_alem ex_dotless = Str "sım"
  /\ caseless_eq "sım" "SIM" = false
  /\ foi_alem ex_dotless = true
  /\ ranking [ex_dotless]
     = [{| pos_rm := "RM4"; pos_nome := "Davi"; quantidade := 1 |}].
Proof. repeat split; reflexivity. Qed.

(** The amended C5 on the sample frame: Ana has "sim" on one activity and
    "Sim" on another, which makes one line with the count 2. *)
Lemma ranking_counts_sim_witness :
  par_de ex_prova = par_de ex_quiz
  /\ ir_alem ex_prova = Str "sim"
  /\ ir_alem ex_quiz = Str "Sim"
  /\ caseless_eq "sIm" "SIM" = true
  /\ upper "sIm" = "SIM"
  /\ ranking [ex_prova; ex_quiz]
     = [{| pos_rm := "RM1"; pos_nome := "Ana"; quantidade := 2 |}]
  /\ In {| pos_rm := "RM1"; pos_nome := "Ana"; quantidade := 2 |} (ranking ex_dados).
Proof.
  destruct (ranking_counts_sim ex_dados
              {| pos_rm := "RM1"; pos_nome := "Ana"; quantidade := 2 |}
              ex_prova ex_prova ex_quiz "sIm") as [Hin [_ [Hcase Hscen]]].
  split; [reflexivity|]. split; [reflexivity|]. split; [reflexivity|].
  split; [reflexivity|]. split; [apply Hcase; reflexivity|].
  split.
  - apply Hscen; reflexivity.
  - apply Hin. split; reflexivity.
Defined.

(** ** Summary *)

Lemma agg_Ok (k : chave) (x : list float) :
  x <> [] -> agg k x = Ok (resumo_de k x).
Proof.
  intros H. destruct k as [[i r] n]. unfold agg, resumo_de.
  rewrite (pct_faltas_Ok x H). reflexivity.
Qed.

Lemma In_chaves (df : list dados) (k : chave) :
  In k (chaves df) <-> chave_notna k = true /\ exists d, In d df /\ chave_de d = k.
Proof.
  unfold chaves.
  rewrite (unique_In chave_eqb chave_eqb_eq), filter_In, in_map_iff.
  split.
  - intros [[d [Hk Hd]] Hn]. split; [exact Hn|]. exists d. split; assumption.
  - intros [Hn [d [Hd Hk]]]. split; [|exact Hn]. exists d. split; assumption.
Qed.

Lemma grupo_not_empty (df : list dados) (d : dados) :
  In d df -> grupo df (chave_de d) <> [].
Proof.
  intros Hd. unfold grupo.
  assert (Hin : In (percentual d)
                  (map percentual
                     (filter (fun d0 => chave_eqb (chave_de d0) (chave_de d)) df))).
  { apply in_map, filter_In. split; [exact Hd | now apply chave_eqb_eq]. }
  intros E. rewrite E in Hin. contradiction.
Qed.

(** [resumo_alunos] never raises: no group of [groupby] is empty. *)
Lemma resumo_alunos_value (df : list dados) :
  resumo_alunos df = Ok (sort resumo_leb (map (linha_resumo df) (chaves df))).
Proof.
  unfold resumo_alunos.
  rewrite (mapM_Ok _ (fun k => resumo_de k (grupo df k))).
  - simpl. rewrite map_map. reflexivity.
  - intros k Hk. apply agg_Ok. apply In_chaves in Hk.
    destruct Hk as [_ [d [Hd <-]]]. now apply grupo_not_empty.
Qed.

(** ** Order independence of the summary *)

Lemma Permutation_filter {A : Type} (f : A -> bool) (l l' : list A) :
  Permutation l l' -> Permutation (filter f l) (filter f l').
Proof.
  induction 1 as [|x l l' _ IH|x y l|l l' l'' _ IH1 _ IH2]; simpl.
  - apply perm_nil.
  - destruct (f x); [apply perm_skip|]; exact IH.
  - destruct (f x), (f y); try apply Permutation_refl. apply perm_swap.
  - eapply perm_trans; eassumption.
Qed.

Lemma len_perm {A : Type} (l l' : list A) : Permutation l l' -> len l = len l'.
Proof. intros H. unfold len. now rewrite (Permutation_length H). Qed.

Lemma grupo_perm (df df' : list dados) (k : chave) :
  Permutation df df' -> Permutation (grupo df k) (grupo df' k).
Proof.
  intros H. unfold grupo. now apply Permutation_map, Permutation_filter.
Qed.

Lemma chaves_perm (df df' : list dados) :
  Permutation df df' -> Permutation (chaves df) (chaves df').
Proof.
  intros H. unfold chaves.
  apply NoDup_Permutation; try apply (unique_NoDup chave_eqb chave_eqb_eq).
  intros k. rewrite !(unique_In chave_eqb chave_eqb_eq).
  assert (P : Permutation (filter chave_notna (map chave_de df))
                          (filter chave_notna (map chave_de df')))
    by now apply Permutation_filter, Permutation_map.
  split; apply Permutation_in; [exact P | apply Permutation_sym, P].
Qed.

Lemma contagens_linha_resumo (df : list dados) (k : chave) :
  contagens (linha_resumo df k)
  = (k, count_notna (grupo df k), pct_faltas_value (grupo df k)).
Proof. destruct k as [[i r] n]. reflexivity. Qed.

Lemma contagens_perm (df df' : list dados) (k : chave) :
  Permutation df df' ->
  contagens (linha_resumo df k) = contagens (linha_resumo df' k).
Proof.
  intros H. rewrite !contagens_linha_resumo.
  pose proof (grupo_perm df df' k H) as Hg.
  unfold count_notna, pct_faltas_value, count_isna.
  rewrite (len_perm _ _ Hg).
  rewrite (Permutation_length (Permutation_filter notna _ _ Hg)).
  rewrite (Permutation_length (Permutation_filter isna _ _ Hg)).
  reflexivity.
Qed.

(** C8 (as amended): on a frame and on any reordering of it,
    [resumo_alunos] returns (without raising) the same students with the
    same number of grades recorded and the same share of missing grades,
    up to the order of the lines.  Nothing is said of the average, which
    is a sum of doubles taken in row order. *)
Theorem resumo_alunos_order_independent (df df' : list dados) :
  Permutation df df' ->
  exists out out',
    resumo_alunos df = Ok out
    /\ resumo_alunos df' = Ok out'
    /\ Permutation (map contagens out) (map contagens out').
Proof.
  intros H. do 2 eexists.
  split; [apply resumo_alunos_value|]. split; [apply resumo_alunos_value|].
  eapply perm_trans; [apply Permutation_map, sort_perm|].
  eapply perm_trans; [|apply Permutation_map, Permutation_sym, sort_perm].
  rewrite !map_map.
  rewrite (map_ext (fun k => contagens (linha_resumo df k))
                   (fun k => contagens (linha_resumo df' k)))
    by (intros k; now apply contagens_perm).
  apply Permutation_map, chaves_perm, H.
Qed.

(** C8, the average depends on the order of the rows: the percentages
    3.8, 8.8, 44.4 and 42.8 of one student average to 25.0 in that order
    and to 24.9 in the order 8.8, 42.8, 3.8, 44.4, both with the
    compensated sum of the group mean and with a plain running sum. *)
Lemma media_pct_depends_on_order :
  Permutation (map pct_b64 ex_milesimos) (map pct_b64 ex_milesimos_outra_ordem)
  /\ media_pct_b64 (map pct_b64 ex_milesimos) = b64_of_Z 25
  /\ media_pct_b64 (map pct_b64 ex_milesimos_outra_ordem)
     = PrimFloat.div (b64_of_Z 249) (b64_of_Z 10)
  /\ round_b64 10 (mean_plain_b64 (map pct_b64 ex_milesimos)) = b64_of_Z 25
  /\ round_b64 10 (mean_plain_b64 (map pct_b64 ex_milesimos_outra_ordem))
     = PrimFloat.div (b64_of_Z 249) (b64_of_Z 10)
  /\ PrimFloat.eqb (media_pct_b64 (map pct_b64 ex_milesimos))
       (media_pct_b64 (map pct_b64 ex_milesimos_outra_ordem)) = false.
Proof.
  split.
  - apply Permutation_map. unfold ex_milesimos, ex_milesimos_outra_ordem.
    eapply perm_trans; [apply perm_swap|]. apply perm_skip.
    eapply perm_trans; [apply perm_skip, perm_swap | apply perm_swap].
  - repeat split; vm_compute; reflexivity.
Qed.

(** The amended C8 on the sample frame and its reversal. *)
Lemma resumo_alunos_order_independent_witness :
  Permutation ex_dados (rev ex_dados)
  /\ exists out out',
       resumo_alunos ex_dados = Ok out
       /\ resumo_alunos (rev ex_dados) = Ok out'
       /\ Permutation (map contagens out) (map contagens out').
Proof.
  split; [apply Permutation_rev|].
  apply (resumo_alunos_order_independent ex_dados (rev ex_dados)).
  apply Permutation_rev.
Defined.

(** C3, tables on which the claim as written fails: the identifiers "A1"
    and " A1" of two activities are distinct as fetched, but the clean-up
    makes both "A1", and the single grade entry on "A1" comes out as two
    rows. *)
Lemma distinct_ids_duplicate_rows :
  NoDup (map a_id_atividade ex_atividades_padded)
  /\ carregar_dados (rt := runtime_decimal) ex_atividades_padded ex_um_aluno
     = Ok ex_dados_padded
  /\ List.length ex_um_aluno = 1%nat
  /\ List.length ex_dados_padded = 2%nat.
Proof.
  split.
  - simpl. constructor.
    + intros [H|[]]. discriminate H.
    + constructor; [intros [] | constructor].
  - split; [vm_compute; reflexivity|]. split; reflexivity.
Qed.

(** The amended C3 on the sample tables: four grade entries, one of them on the
    unknown activity A9, give four rows. *)
Lemma left_join_keeps_every_grade_witness :
  NoDup (map atv_id_atividade (frame_atv (rt := runtime_decimal) ex_atividades))
  /\ exists ds,
       carregar_dados (rt := runtime_decimal) ex_atividades ex_alunos = Ok ds
       /\ Permutation (map alu_de ds) (frame_alu (rt := runtime_decimal) ex_alunos)
       /\ List.length ds = List.length ex_alunos.
Proof.
  assert (Hnd : NoDup (map atv_id_atividade
                         (frame_atv (rt := runtime_decimal) ex_atividades))).
  { vm_compute. constructor.
    - intros [H|[]]. discriminate H.
    - constructor; [intros [] | constructor]. }
  split; [exact Hnd|].
  apply (left_join_keeps_every_grade (rt := runtime_decimal)
           ex_atividades ex_alunos Hnd).
Defined.

(** * Further properties of the pipeline *)

(** ** Sorted output *)

Section Sortedness.

Context {A : Type} (leb : A -> A -> bool).
Hypothesis leb_total : forall x y, leb x y = false -> leb y x = true.
Hypothesis leb_trans :
  forall x y z, leb x y = true -> leb y z = true -> leb x z = true.

Lemma insert_HdRel (a x : A) (l : list A) :
  leb a x = true ->
  HdRel (fun u v => leb u v = true) a l ->
  HdRel (fun u v => leb u v = true) a (insert leb x l).
Proof.
  intros Hax Hl. destruct l as [|y l]; simpl.
  - constructor. exact Hax.
  - destruct (leb x y); constructor; [exact Hax|].
    now apply HdRel_inv in Hl.
Qed.

Lemma insert_Sorted (x : A) (l : list A) :
  Sorted (fun u v => leb u v = true) l ->
  Sorted (fun u v => leb u v = true) (insert leb x l).
Proof.
  induction l as [|y l IH]; intros Hs; simpl.
  - repeat constructor.
  - apply Sorted_inv in Hs. destruct Hs as [Hs Hhd].
    destruct (leb x y) eqn:E.
    + constructor; [constructor; assumption | constructor; exact E].
    + constructor; [apply IH, Hs|].
      apply insert_HdRel; [apply leb_total, E | exact Hhd].
Qed.

Lemma sort_Sorted (l : list A) : Sorted (fun u v => leb u v = true) (sort leb l).
Proof.
  induction l as [|x l IH]; simpl; [constructor|]. now apply insert_Sorted.
Qed.

(** Every element is below all the elements after it. *)
Lemma sort_StronglySorted (l : list A) :
  StronglySorted (fun u v => leb u v = true) (sort leb l).
Proof.
  apply Sorted_StronglySorted; [|apply sort_Sorted].
  intros x y z. apply leb_trans.
Qed.

End Sortedness.

Lemma ascii_compare_refl (a : ascii) : Ascii.compare a a = Eq.
Proof. unfold Ascii.compare. apply N.compare_refl. Qed.

Lemma ascii_compare_lt_trans (a b c : ascii) :
  Ascii.compare a b = Lt -> Ascii.compare b c = Lt -> Ascii.compare a c = Lt.
Proof.
  unfold Ascii.compare. rewrite !N.compare_lt_iff. apply N.lt_trans.
Qed.

Lemma string_compare_refl (s : string) : String.compare s s = Eq.
Proof.
  induction s as [|a s IH]; simpl; [reflexivity|].
  now rewrite ascii_compare_refl.
Qed.

Lemma string_compare_lt_trans (s t u : string) :
  String.compare s t = Lt -> String.compare t u = Lt -> String.compare s u = Lt.
Proof.
  revert t u. induction s as [|a s IH]; intros [|b t] [|c u]; simpl;
    try discriminate; try reflexivity.
  destruct (Ascii.compare a b) eqn:Eab; try discriminate;
    destruct (Ascii.compare b c) eqn:Ebc; try discriminate; intros H1 H2.
  - apply Ascii.compare_eq_iff in Eab, Ebc. subst.
    rewrite ascii_compare_refl. now apply (IH t u).
  - apply Ascii.compare_eq_iff in Eab. subst. now rewrite Ebc.
  - apply Ascii.compare_eq_iff in Ebc. subst. now rewrite Eab.
  - now rewrite (ascii_compare_lt_trans a b c Eab Ebc).
Qed.

Lemma string_leb_false (s t : string) :
  String.leb s t = false -> String.leb t s = true.
Proof.
  intros H. destruct (String.leb_total s t) as [E|E]; [congruence | exact E].
Qed.

Lemma string_leb_trans (s t u : string) :
  String.leb s t = true -> String.leb t u = true -> String.leb s u = true.
Proof.
  unfold String.leb.
  destruct (String.compare s t) eqn:E1; try discriminate;
    destruct (String.compare t u) eqn:E2; try discriminate; intros _ _.
  - apply String.compare_eq_iff in E1, E2. subst. now rewrite string_compare_refl.
  - apply String.compare_eq_iff in E1. subst. now rewrite E2.
  - apply String.compare_eq_iff in E2. subst. now rewrite E1.
  - now rewrite (string_compare_lt_trans s t u E1 E2).
Qed.

Lemma key_compare_refl (a : option string) : key_compare a a = Eq.
Proof. destruct a; simpl; [apply string_compare_refl | reflexivity]. Qed.

Lemma key_compare_eq (a b : option string) : key_compare a b = Eq -> a = b.
Proof.
  destruct a, b; simpl; try discriminate; [|reflexivity].
  intros H. apply String.compare_eq_iff in H. now subst.
Qed.

Lemma key_compare_antisym (a b : option string) :
  key_compare b a = CompOpp (key_compare a b).
Proof.
  destruct a, b; simpl; try reflexivity. apply String.compare_antisym.
Qed.

Lemma key_compare_lt_trans (a b c : option string) :
  key_compare a b = Lt -> key_compare b c = Lt -> key_compare a c = Lt.
Proof.
  destruct a, b, c; simpl; try discriminate; try reflexivity.
  apply string_compare_lt_trans.
Qed.

Lemma dados_leb_false (x y : dados) : dados_leb x y = false -> dados_leb y x = true.
Proof.
  unfold dados_leb.
  rewrite (key_compare_antisym (text_key (fase x)) (text_key (fase y))).
  rewrite (key_compare_antisym (text_key (nome_atividade x))
             (text_key (nome_atividade y))).
  destruct (key_compare (text_key (fase x)) (text_key (fase y))); simpl;
    try discriminate; try reflexivity.
  destruct (key_compare (text_key (nome_atividade x))
              (text_key (nome_atividade y))); simpl;
    try discriminate; reflexivity.
Qed.

Lemma dados_leb_trans (x y z : dados) :
  dados_leb x y = true -> dados_leb y z = true -> dados_leb x z = true.
Proof.
  unfold dados_leb.
  destruct (key_compare (text_key (fase x)) (text_key (fase y))) eqn:F1;
    try discriminate;
    destruct (key_compare (text_key (fase y)) (text_key (fase z))) eqn:F2;
    try discriminate.
  - apply key_compare_eq in F1, F2. rewrite F1, F2, key_compare_refl.
    destruct (key_compare (text_key (nome_atividade x))
                (text_key (nome_atividade y))) eqn:N1; try discriminate;
      destruct (key_compare (text_key (nome_atividade y))
                  (text_key (nome_atividade z))) eqn:N2; try discriminate;
      intros _ _.
    + apply key_compare_eq in N1, N2. now rewrite N1, N2, key_compare_refl.
    + apply key_compare_eq in N1. now rewrite N1, N2.
    + apply key_compare_eq in N2. now rewrite <- N2, N1.
    + now rewrite (key_compare_lt_trans _ _ _ N1 N2).
  - apply key_compare_eq in F1. now rewrite F1, F2.
  - apply key_compare_eq in F2. now rewrite <- F2, F1.
  - now rewrite (key_compare_lt_trans _ _ _ F1 F2).
Qed.

(** The frame [carregar_dados] returns is in the order of
    [sort_values(["fase", "nome_atividade"])]: every row is at or below each
    row after it, by [fase] first and [nome_atividade] next, in text order
    with the nulls of an unmatched activity last. *)
Theorem carregar_dados_sorted {rt : Runtime} (atividades : list atividade)
    (alunos : list aluno) :
  exists ds,
    carregar_dados atividades alunos = Ok ds
    /\ StronglySorted (fun x y => dados_leb x y = true) ds.
Proof.
  eexists. split; [apply carregar_dados_value|].
  apply sort_StronglySorted; [apply dados_leb_false | apply dados_leb_trans].
Qed.

(** ** White space around identifiers *)

Lemma rstrip_all_space (w : string) : all_space w = true -> rstrip w = EmptyString.
Proof.
  induction w as [|c w IH]; simpl; [reflexivity|].
  intros H. apply andb_true_iff in H. destruct H as [Hc Hw].
  now rewrite (IH Hw), Hc.
Qed.

Lemma lstrip_all_space (w : string) : all_space w = true -> lstrip w = EmptyString.
Proof.
  induction w as [|c w IH]; simpl; [reflexivity|].
  intros H. apply andb_true_iff in H. destruct H as [Hc Hw].
  rewrite Hc. now apply IH.
Qed.

Lemma rstrip_app_space (s w : string) :
  all_space w = true -> rstrip (s ++ w) = rstrip s.
Proof.
  intros Hw. induction s as [|c s IH]; simpl.
  - now apply rstrip_all_space.
  - now rewrite IH.
Qed.

Lemma lstrip_app_space (w s : string) :
  all_space w = true -> lstrip (w ++ s) = lstrip s.
Proof.
  induction w as [|c w IH]; simpl; [reflexivity|].
  intros H. apply andb_true_iff in H. destruct H as [Hc Hw].
  rewrite Hc. now apply IH.
Qed.

Lemma strip_app_space (s w : string) :
  all_space w = true -> strip (s ++ w) = strip s.
Proof.
  intros Hw. unfold strip. induction s as [|c s IH]; simpl.
  - now rewrite (lstrip_all_space w Hw).
  - destruct (is_space c); [exact IH|].
    change (String c (s ++ w)) with (String c s ++ w).
    now apply rstrip_app_space.
Qed.

Lemma strip_padding (w1 s w2 : string) :
  all_space w1 = true -> all_space w2 = true -> strip (w1 ++ s ++ w2) = strip s.
Proof.
  intros H1 H2. rewrite <- (strip_app_space s w2 H2).
  unfold strip. now rewrite (lstrip_app_space w1 _ H1).
Qed.

Lemma strip_rstrip (s : string) : strip (rstrip s) = strip s.
Proof.
  destruct (rstrip_split s) as [w [Hs Hw]].
  rewrite Hs at 2. symmetry. now apply strip_app_space.
Qed.

Lemma rstrip_fixpoint (s : string) : ends_with_space s = false -> rstrip s = s.
Proof.
  induction s as [|c s IH]; [reflexivity|].
  destruct s as [|c' s'].
  - simpl. now intros ->.
  - intros H. change (ends_with_space (String c' s') = false) in H.
    change (rstrip (String c (String c' s')))
      with (match rstrip (String c' s') with
            | EmptyString => if is_space c then EmptyString else String c EmptyString
            | r => String c r
            end).
    now rewrite (IH H).
Qed.

Lemma lstrip_strip (s : string) : lstrip (strip s) = strip s.
Proof.
  unfold strip. induction s as [|c s IH]; [reflexivity|].
  simpl lstrip at 2 3. destruct (is_space c) eqn:Hc; [exact IH|].
  simpl. destruct (rstrip s); rewrite ?Hc; simpl; rewrite ?Hc; reflexivity.
Qed.

(** [strip] leaves nothing to strip. *)
Lemma strip_idempotent (s : string) : strip (strip s) = strip s.
Proof.
  unfold strip at 1. rewrite lstrip_strip. unfold strip.
  apply rstrip_fixpoint, rstrip_no_trailing_space.
Qed.

(** The identifiers and names the loader compares are compared without the
    white space around them: the cleaned text of a fetched text cell does not
    change when blanks are added before or after it, and it has no blank
    left at either end (stripping it again changes nothing). *)
Theorem limpar_texto_ignores_padding {rt : Runtime} (w1 s w2 : string) :
  all_space w1 = true ->
  all_space w2 = true ->
  limpar_texto (fix_value (Str (w1 ++ s ++ w2))) = limpar_texto (fix_value (Str s))
  /\ limpar_texto (fix_value (Str s)) = strip s
  /\ strip (limpar_texto (fix_value (Str s))) = limpar_texto (fix_value (Str s)).
Proof.
  intros H1 H2. unfold limpar_texto, fix_value, astype_str.
  rewrite !strip_rstrip. split; [now apply strip_padding|].
  split; [reflexivity | apply strip_idempotent].
Qed.

Lemma limpar_texto_ignores_padding_witness :
  all_space "  " = true
  /\ all_space " " = true
  /\ limpar_texto (rt := runtime_decimal) (fix_value (Str ("  " ++ "A 1" ++ " ")))
     = "A 1".
Proof.
  split; [reflexivity|]. split; [reflexivity|].
  destruct (limpar_texto_ignores_padding (rt := runtime_decimal)
              "  " "A 1" " " eq_refl eq_refl) as [H [H' _]].
  rewrite H, H'. reflexivity.
Defined.

(** ** Rows of the left join *)

Section Join_rows.

Context {rt : Runtime}.

Lemma In_matches (g : alu_row) (atv : list atv_row) (a : atv_row) :
  In a (matches g atv) <-> In a atv /\ atv_id_atividade a = alu_id_atividade g.
Proof. unfold matches. now rewrite filter_In, String.eqb_eq. Qed.

Lemma matches_nil (g : alu_row) (atv : list atv_row) :
  matches g atv = [] <-> ~ In (alu_id_atividade g) (map atv_id_atividade atv).
Proof.
  split.
  - intros E Hin. apply in_map_iff in Hin. destruct Hin as [a [Ha Hin]].
    assert (H : In a (matches g atv)) by (apply In_matches; now split).
    rewrite E in H. contradiction.
  - intros Hn. destruct (matches g atv) as [|a ms] eqn:E; [reflexivity|].
    exfalso. apply Hn.
    assert (H : In a (matches g atv)) by (rewrite E; left; reflexivity).
    apply In_matches in H. destruct H as [Ha <-]. now apply in_map.
Qed.

Lemma In_merge_iff (alu : list alu_row) (atv : list atv_row) (m : merged) :
  In m (merge alu atv) <->
  exists g, In g alu
            /\ ((matches g atv = [] /\ m = join g None)
                \/ exists a, In a (matches g atv) /\ m = join g (Some a)).
Proof.
  unfold merge. rewrite in_flat_map. split.
  - intros [g [Hg Hm]]. exists g. split; [exact Hg|].
    destruct (matches g atv) as [|a ms] eqn:E.
    + left. destruct Hm as [<-|[]]. split; reflexivity.
    + right. apply in_map_iff in Hm. destruct Hm as [b [<- Hb]].
      exists b. split; [exact Hb | reflexivity].
  - intros [g [Hg [[E ->]|[a [Ha ->]]]]]; exists g; (split; [exact Hg|]).
    + rewrite E. left. reflexivity.
    + destruct (matches g atv) as [|b ms]; [contradiction|].
      apply in_map_iff. exists a. split; [reflexivity | exact Ha].
Qed.

(** A grade entry whose activity is not in [atividades] keeps its row, with
    nothing from an activity in it: in a row the loader returns, [turma] is
    null exactly when no activity has the row's (cleaned) identifier, and
    then [fase], [nome_atividade], [nota_maxima] and [percentual] are null
    as well and the row belongs to no class: no choice of [turma_sel] puts
    it in [df_turma]. *)
Theorem unmatched_grade_row (atividades : list atividade) (alunos : list aluno)
    (ds : list dados) (r : dados) :
  carregar_dados atividades alunos = Ok ds ->
  In r ds ->
  (turma r = Null <->
   ~ In (id_atividade r) (map atv_id_atividade (frame_atv atividades)))
  /\ (turma r = Null ->
      fase r = Null /\ nome_atividade r = Null
      /\ nota_maxima r = NaN /\ percentual r = NaN)
  /\ (turma r = Null -> forall t, ~ In r (filtrar_turma ds t)).
Proof.
  intros Hload Hin.
  assert (Hclass : turma r = Null -> forall t, ~ In r (filtrar_turma ds t)).
  { intros Hn t Hr. unfold filtrar_turma in Hr. apply filter_In in Hr.
    destruct Hr as [_ Hr]. rewrite Hn in Hr. discriminate. }
  cut ((turma r = Null <->
        ~ In (id_atividade r) (map atv_id_atividade (frame_atv atividades)))
       /\ (turma r = Null ->
           fase r = Null /\ nome_atividade r = Null
           /\ nota_maxima r = NaN /\ percentual r = NaN)).
  { intros [H1 H2]. split; [exact H1|]. split; [exact H2 | exact Hclass]. }
  clear Hclass.
  apply (In_carregar_dados _ _ _ _ Hload) in Hin.
  unfold dados_de in Hin. apply in_map_iff in Hin. destruct Hin as [m [<- Hm]].
  apply In_merge_iff in Hm.
  destruct Hm as [g [_ [[E ->]|[a [Ha ->]]]]].
  - split.
    + split; [intros _; now apply matches_nil | reflexivity].
    + intros _. repeat split.
      unfold com_percentual, percentual_de. cbn [percentual m_nota m_nota_maxima join].
      now destruct (alu_nota g).
  - split.
    + split; [discriminate|]. intros Hn. exfalso.
      assert (Hne : matches g (frame_atv atividades) <> [])
        by (intros E; rewrite E in Ha; contradiction).
      apply Hne, matches_nil. exact Hn.
    + discriminate.
Qed.

Lemma limpar_texto_fix_padding (w1 s w2 : string) :
  all_space w1 = true ->
  all_space w2 = true ->
  limpar_texto (fix_value (Str (w1 ++ s ++ w2))) = strip s.
Proof.
  intros H1 H2. unfold limpar_texto, fix_value, astype_str.
  rewrite strip_rstrip. now apply strip_padding.
Qed.

(** Identifiers are joined without regard to the white space around them:
    when an activity and a grade entry carry the same identifier up to
    blanks before and after it, the loader returns a row with the columns
    of that grade entry and the [nota_maxima] and [turma] of that
    activity. *)
Theorem join_ignores_padding (atividades : list atividade) (alunos : list aluno)
    (a : atividade) (g : aluno) (i w1 w2 w3 w4 : string) :
  In a atividades ->
  In g alunos ->
  all_space w1 = true -> all_space w2 = true ->
  all_space w3 = true -> all_space w4 = true ->
  a_id_atividade a = Str (w1 ++ i ++ w2) ->
  g_id_atividade g = Str (w3 ++ i ++ w4) ->
  exists ds r,
    carregar_dados atividades alunos = Ok ds
    /\ In r ds
    /\ alu_de r = limpar_alu (fix_aluno g)
    /\ nota_maxima r = a_nota_maxima a
    /\ turma r = Str (limpar_texto (fix_value (a_turma a))).
Proof.
  intros Ha Hg H1 H2 H3 H4 Ea Eg.
  exists (sort dados_leb (dados_de atividades alunos)).
  exists (com_percentual (join (limpar_alu (fix_aluno g))
                            (Some (limpar_atv (fix_atividade a))))).
  split; [apply carregar_dados_value|]. split.
  - apply sort_In. unfold dados_de. apply in_map. apply In_merge_iff.
    exists (limpar_alu (fix_aluno g)). split.
    + unfold frame_alu. apply in_map_iff. exists g. split; [reflexivity | exact Hg].
    + right. exists (limpar_atv (fix_atividade a)). split; [|reflexivity].
      apply In_matches. split.
      * unfold frame_atv. apply in_map_iff. exists a. split; [reflexivity | exact Ha].
      * cbn [atv_id_atividade limpar_atv alu_id_atividade limpar_alu
               a_id_atividade fix_atividade g_id_atividade fix_aluno].
        rewrite Ea, Eg.
        now rewrite !limpar_texto_fix_padding.
  - split; [apply alu_de_join|]. split; reflexivity.
Qed.

End Join_rows.

(** ** Range of the percentage *)

Lemma rint_le_Z (q : Q) (z : Z) : (q <= inject_Z z)%Q -> rint q <= z.
Proof.
  destruct q as [n d]. unfold Qle, rint. cbn [Qnum Qden inject_Z]. intros H.
  pose proof (Z.div_mod n (Zpos d) ltac:(lia)) as Hdm.
  pose proof (Z.mod_pos_bound n (Zpos d) ltac:(lia)) as Hb.
  assert (Hf : n / Zpos d <= z) by nia.
  destruct (2 * (n mod Zpos d) ?= Zpos d) eqn:E.
  - apply Z.compare_eq in E. destruct (Z.even (n / Zpos d)); nia.
  - exact Hf.
  - apply Z.compare_gt_iff in E. nia.
Qed.

Lemma rint_ge_Z (q : Q) (z : Z) : (inject_Z z <= q)%Q -> z <= rint q.
Proof.
  destruct q as [n d]. unfold Qle, rint. cbn [Qnum Qden inject_Z]. intros H.
  pose proof (Z.div_mod n (Zpos d) ltac:(lia)) as Hdm.
  pose proof (Z.mod_pos_bound n (Zpos d) ltac:(lia)) as Hb.
  assert (Hf : z <= n / Zpos d) by nia.
  destruct (2 * (n mod Zpos d) ?= Zpos d);
    [destruct (Z.even (n / Zpos d))| |]; lia.
Qed.

Lemma rint_inject_Z (q : Q) (z : Z) : (q == inject_Z z)%Q -> rint q = z.
Proof.
  intros H. apply Z.le_antisymm.
  - apply rint_le_Z. rewrite H. apply Qle_refl.
  - apply rint_ge_Z. rewrite H. apply Qle_refl.
Qed.

Lemma pow10_pos (decimals : nat) : (0 < inject_Z (Z.pow 10 (Z.of_nat decimals)))%Q.
Proof.
  unfold Qlt. cbn [Qnum Qden inject_Z].
  pose proof (Z.pow_pos_nonneg 10 (Z.of_nat decimals) ltac:(lia) ltac:(lia)). lia.
Qed.

Lemma fround_upper (decimals : nat) (q : Q) (hi : Z) :
  (q <= inject_Z hi)%Q ->
  exists t, fround decimals (Fin q) = Fin (Qred t) /\ (t <= inject_Z hi)%Q.
Proof.
  intros H. unfold fround. eexists. split; [reflexivity|].
  pose proof (pow10_pos decimals) as Hp.
  apply Qle_shift_div_r; [exact Hp|].
  rewrite <- inject_Z_mult. rewrite <- Zle_Qle. apply rint_le_Z.
  rewrite inject_Z_mult. apply Qmult_le_compat_r; [exact H | now apply Qlt_le_weak].
Qed.

Lemma fround_lower (decimals : nat) (q : Q) (lo : Z) :
  (inject_Z lo <= q)%Q ->
  exists t, fround decimals (Fin q) = Fin (Qred t) /\ (inject_Z lo <= t)%Q.
Proof.
  intros H. unfold fround. eexists. split; [reflexivity|].
  pose proof (pow10_pos decimals) as Hp.
  apply Qle_shift_div_l; [exact Hp|].
  rewrite <- inject_Z_mult. rewrite <- Zle_Qle. apply rint_ge_Z.
  rewrite inject_Z_mult. apply Qmult_le_compat_r; [exact H | now apply Qlt_le_weak].
Qed.

Lemma fround_bounds (decimals : nat) (q : Q) (lo hi : Z) :
  (inject_Z lo <= q)%Q ->
  (q <= inject_Z hi)%Q ->
  exists t, fround decimals (Fin q) = Fin (Qred t)
            /\ (inject_Z lo <= t)%Q /\ (t <= inject_Z hi)%Q.
Proof.
  intros Hlo Hhi.
  destruct (fround_lower decimals q lo Hlo) as [t [E Ht]].
  destruct (fround_upper decimals q hi Hhi) as [t' [E' Ht']].
  exists t. split; [exact E|]. split; [exact Ht|].
  rewrite E in E'. injection E' as E'.
  rewrite <- (Qred_correct t), E', Qred_correct. exact Ht'.
Qed.

Lemma fmul_fdiv_100 (a b : Q) :
  (0 < b)%Q ->
  fmul (fdiv (Fin a) (Fin b)) (Fin (inject_Z 100))
  = Fin (Qred (Qred (a / b) * inject_Z 100)).
Proof.
  intros Hb. unfold fdiv.
  assert (E : Qeq_bool b 0 = false).
  { destruct (Qeq_bool b 0) eqn:E; [|reflexivity].
    apply Qeq_bool_iff in E. rewrite E in Hb. now apply Qlt_irrefl in Hb. }
  rewrite E. reflexivity.
Qed.

(** A grade between 0 and the maximum of its activity gets a percentage
    between 0 and 100, and a grade at or above the maximum gets exactly
    100 (for a positive maximum). *)
Theorem percentual_in_range (a b : Q) :
  (0 < b)%Q ->
  (0 <= a)%Q ->
  ((a <= b)%Q ->
   exists p, percentual_de (Fin a) (Fin b) = Fin p /\ (0 <= p)%Q /\ (p <= 100)%Q)
  /\ ((b <= a)%Q -> percentual_de (Fin a) (Fin b) = Fin (inject_Z 100)).
Proof.
  intros Hb Ha. unfold percentual_de. rewrite (fmul_fdiv_100 a b Hb).
  set (x := Qred (Qred (a / b) * inject_Z 100)).
  assert (Hx : (x == a / b * inject_Z 100)%Q)
    by (unfold x; now rewrite !Qred_correct).
  split; intros Hab.
  - assert (Hlo : (inject_Z 0 <= x)%Q).
    { rewrite Hx. apply Qmult_le_0_compat; [|discriminate].
      apply Qle_shift_div_l; [exact Hb|]. now rewrite Qmult_0_l. }
    assert (Hhi : (x <= inject_Z 100)%Q).
    { rewrite Hx. rewrite <- (Qmult_1_l (inject_Z 100)) at 2.
      apply Qmult_le_compat_r; [|discriminate].
      apply Qle_shift_div_r; [exact Hb|]. now rewrite Qmult_1_l. }
    destruct (fround_bounds 3 x 0 100 Hlo Hhi) as [t [E [Ht2 Ht1]]].
    rewrite E.
    assert (Hle : (Qred t <= inject_Z 100)%Q) by now rewrite Qred_correct.
    assert (Hge : (0 <= Qred t)%Q) by now rewrite Qred_correct.
    exists (Qred t). unfold clip_upper.
    apply Qle_bool_iff in Hle. rewrite Hle.
    split; [reflexivity|]. split; [exact Hge | now apply Qle_bool_iff].
  - assert (Hlo : (inject_Z 100 <= x)%Q).
    { rewrite Hx. rewrite <- (Qmult_1_l (inject_Z 100)) at 1.
      apply Qmult_le_compat_r; [|discriminate].
      apply Qle_shift_div_l; [exact Hb|]. now rewrite Qmult_1_l. }
    destruct (fround_lower 3 x 100 Hlo) as [t [E Ht]].
    rewrite E. unfold clip_upper.
    destruct (Qle_bool (Qred t) (inject_Z 100)) eqn:Hc; [|reflexivity].
    apply Qle_bool_iff in Hc. rewrite Qred_correct in Hc.
    f_equal. change (inject_Z 100) with (Qred (inject_Z 100)).
    apply Qred_complete. now apply Qle_antisym.
Qed.

Lemma percentual_in_range_witness :
  (0 < 10)%Q /\ (0 <= 10)%Q /\ (10 <= 10)%Q
  /\ (exists p, percentual_de (Fin 10) (Fin 10) = Fin p /\ (0 <= p)%Q /\ (p <= 100)%Q)
  /\ percentual_de (Fin 10) (Fin 10) = Fin (inject_Z 100).
Proof.
  split; [reflexivity|]. split; [discriminate|]. split; [discriminate|].
  destruct (percentual_in_range 10 10) as [Hin Hmax];
    [reflexivity | discriminate |].
  split; [apply Hin | apply Hmax]; discriminate.
Defined.

(** ** Rounding twice *)

Lemma fround_idempotent (decimals : nat) (x : float) :
  fround decimals (fround decimals x) = fround decimals x.
Proof.
  destruct x as [| | |q]; try reflexivity.
  unfold fround. cbv zeta.
  set (P := inject_Z (10 ^ Z.of_nat decimals)).
  set (z := rint (q * P)).
  assert (Hz : rint (Qred (inject_Z z / P) * P) = z).
  { apply rint_inject_Z. rewrite Qred_correct, Qmult_comm.
    apply Qmult_div_r. apply Qnot_eq_sym, Qlt_not_eq, pow10_pos. }
  now rewrite Hz.
Qed.

Lemma fround_percentual_de (n m : float) :
  fround 3 (percentual_de n m) = percentual_de n m.
Proof.
  unfold percentual_de.
  destruct (fround 3 (fmul (fdiv n m) (Fin (inject_Z 100)))) as [| | |r] eqn:E;
    try reflexivity.
  unfold clip_upper. destruct (Qle_bool r (inject_Z 100)); [|reflexivity].
  rewrite <- E. apply fround_idempotent.
Qed.

(** The detail table rounds the columns [nota], [nota_maxima] and
    [percentual] to three decimals; on rows taken from the loader's frame
    this leaves [percentual] as it is, already rounded and clamped. *)
Theorem tabela_keeps_percentual {rt : Runtime} (atividades : list atividade)
    (alunos : list aluno) (ds df_aluno : list dados) :
  carregar_dados atividades alunos = Ok ds ->
  incl df_aluno ds ->
  map det_pct (tabela df_aluno) = map percentual df_aluno.
Proof.
  intros Hload Hincl. unfold tabela. rewrite map_map. apply map_ext_in.
  intros d Hd. cbn [det_pct]. apply Hincl in Hd.
  apply (In_carregar_dados _ _ _ _ Hload) in Hd.
  rewrite (In_dados_de _ _ _ Hd). apply fround_percentual_de.
Qed.

Lemma tabela_keeps_percentual_witness :
  carregar_dados (rt := runtime_decimal) ex_atividades ex_alunos = Ok ex_dados
  /\ incl [ex_prova; ex_quiz] ex_dados
  /\ map det_pct (tabela [ex_prova; ex_quiz]) = map percentual [ex_prova; ex_quiz].
Proof.
  assert (Hload : carregar_dados (rt := runtime_decimal) ex_atividades ex_alunos
                  = Ok ex_dados) by (vm_compute; reflexivity).
  assert (Hincl : incl [ex_prova; ex_quiz] ex_dados).
  { intros d [<-|[<-|[]]]; [right; left | left]; reflexivity. }
  split; [exact Hload|]. split; [exact Hincl|].
  apply (tabela_keeps_percentual (rt := runtime_decimal)
           ex_atividades ex_alunos ex_dados [ex_prova; ex_quiz] Hload Hincl).
Defined.

(** The samples of the two join properties. *)
Lemma unmatched_grade_row_witness :
  carregar_dados (rt := runtime_decimal) ex_atividades ex_alunos = Ok ex_dados
  /\ In ex_orfa ex_dados
  /\ ~ In (id_atividade ex_orfa)
         (map atv_id_atividade (frame_atv (rt := runtime_decimal) ex_atividades))
  /\ turma ex_orfa = Null
  /\ percentual ex_orfa = NaN.
Proof.
  assert (Hload : carregar_dados (rt := runtime_decimal) ex_atividades ex_alunos
                  = Ok ex_dados) by (vm_compute; reflexivity).
  assert (Hin : In ex_orfa ex_dados) by (do 3 right; left; reflexivity).
  destruct (unmatched_grade_row (rt := runtime_decimal)
              ex_atividades ex_alunos ex_dados ex_orfa Hload Hin)
    as [Hiff [Hnull _]].
  split; [exact Hload|]. split; [exact Hin|].
  split; [apply Hiff; reflexivity|]. split; [reflexivity|].
  apply Hnull. reflexivity.
Defined.

Lemma join_ignores_padding_witness :
  In ex_a1 ex_atividades
  /\ In ex_g1 ex_alunos
  /\ all_space "" = true /\ all_space " " = true
  /\ a_id_atividade ex_a1 = Str ("" ++ "A1" ++ " ")
  /\ g_id_atividade ex_g1 = Str ("" ++ "A1" ++ "")
  /\ exists ds r,
       carregar_dados (rt := runtime_decimal) ex_atividades ex_alunos = Ok ds
       /\ In r ds
       /\ alu_de r = limpar_alu (rt := runtime_decimal) (fix_aluno ex_g1)
       /\ nota_maxima r = a_nota_maxima ex_a1
       /\ turma r = Str (limpar_texto (rt := runtime_decimal)
                           (fix_value (a_turma ex_a1))).
Proof.
  assert (Ha : In ex_a1 ex_atividades) by (left; reflexivity).
  assert (Hg : In ex_g1 ex_alunos) by (left; reflexivity).
  split; [exact Ha|]. split; [exact Hg|].
  split; [reflexivity|]. split; [reflexivity|].
  split; [reflexivity|]. split; [reflexivity|].
  apply (join_ignores_padding (rt := runtime_decimal) ex_atividades ex_alunos
           ex_a1 ex_g1 "A1" "" " " "" ""
           Ha Hg eq_refl eq_refl eq_refl eq_refl eq_refl eq_refl).
Defined.

(** ** Lines of the summary *)

Lemma chave_linha_resumo (df : list dados) (k : chave) :
  chave_resumo (linha_resumo df k) = k.
Proof. destruct k as [[i r] n]. reflexivity. Qed.

Lemma resumo_leb_false (a b : resumo) : resumo_leb a b = false -> resumo_leb b a = true.
Proof. apply string_leb_false. Qed.

Lemma resumo_leb_trans (a b c : resumo) :
  resumo_leb a b = true -> resumo_leb b c = true -> resumo_leb a c = true.
Proof. apply string_leb_trans. Qed.

(** The summary has one line per student: it is in ascending order of
    [Nome], no two lines have the same key (id_aluno, RM, Nome), and the
    keys are those of the rows of the frame whose [id_aluno] is not null. *)
Theorem resumo_alunos_one_line_per_student (df : list dados) :
  exists out,
    resumo_alunos df = Ok out
    /\ StronglySorted (fun a b => String.leb (res_nome a) (res_nome b) = true) out
    /\ NoDup (map chave_resumo out)
    /\ forall k, In k (map chave_resumo out) <->
                 chave_notna k = true /\ exists d, In d df /\ chave_de d = k.
Proof.
  eexists. split; [apply resumo_alunos_value|].
  assert (P : Permutation (map chave_resumo
                             (sort resumo_leb (map (linha_resumo df) (chaves df))))
                          (chaves df)).
  { eapply perm_trans; [apply Permutation_map, sort_perm|].
    rewrite map_map. rewrite (map_ext _ (fun k => k)) by apply chave_linha_resumo.
    rewrite map_id. apply Permutation_refl. }
  split; [|split].
  - apply (sort_StronglySorted resumo_leb resumo_leb_false resumo_leb_trans).
  - apply (Permutation_NoDup (Permutation_sym P)).
    apply (unique_NoDup chave_eqb chave_eqb_eq).
  - intros k. rewrite <- In_chaves.
    split; apply Permutation_in; [exact P | apply Permutation_sym, P].
Qed.

Lemma filter_notna_isna_length (x : list float) :
  count_notna x + count_isna x = len x.
Proof.
  unfold count_notna, count_isna, len.
  assert (H : (List.length (filter notna x) + List.length (filter isna x)
               = List.length x)%nat).
  { unfold notna. induction x as [|v x IH]; simpl; [reflexivity|].
    destruct (isna v); simpl; lia. }
  lia.
Qed.

Lemma count_isna_bounds (x : list float) : 0 <= count_isna x <= len x.
Proof.
  pose proof (filter_notna_isna_length x) as H.
  unfold count_notna, count_isna, len in *. lia.
Qed.

Lemma pct_faltas_value_bounds (x : list float) :
  x <> [] -> 0 <= pct_faltas_value x <= 100.
Proof.
  intros Hne. unfold pct_faltas_value.
  pose proof (len_pos x Hne) as Hn. pose proof (count_isna_bounds x) as Hk.
  assert (Hq : (0 < inject_Z (len x))%Q)
    by (unfold Qlt; cbn [Qnum Qden inject_Z]; lia).
  split.
  - apply rint_ge_Z. rewrite Qred_correct.
    apply Qle_shift_div_l; [exact Hq|]. rewrite Qmult_0_l.
    unfold Qle. cbn [Qnum Qden inject_Z]. lia.
  - apply rint_le_Z. rewrite Qred_correct.
    apply Qle_shift_div_r; [exact Hq|]. rewrite <- inject_Z_mult.
    rewrite <- Zle_Qle. lia.
Qed.

Lemma mean_no_value (x : list float) : count_notna x = 0 -> mean x = NaN.
Proof.
  unfold count_notna, mean. destruct (filter notna x); [reflexivity|].
  simpl. lia.
Qed.

(** Each line of the summary counts the rows of its student: the grades
    recorded and the missing ones add up to the number of rows, which is
    not zero; the share of missing grades lies between 0 and 100; and with
    no grade recorded the average is null. *)
Theorem resumo_alunos_counts (df : list dados) (out : list resumo) (e : resumo) :
  resumo_alunos df = Ok out ->
  In e out ->
  let x := grupo df (chave_resumo e) in
  0 < len x
  /\ notas_lancadas e = count_notna x
  /\ notas_lancadas e + count_isna x = len x
  /\ 0 <= pct_sem_nota e <= 100
  /\ (notas_lancadas e = 0 -> media_pct e = NaN).
Proof.
  rewrite resumo_alunos_value. intros H Hin. injection H as <-.
  apply sort_In, in_map_iff in Hin. destruct Hin as [k [<- Hk]].
  rewrite chave_linha_resumo. cbv zeta.
  apply In_chaves in Hk. destruct Hk as [_ [d [Hd <-]]].
  pose proof (grupo_not_empty df d Hd) as Hne.
  set (x := grupo df (chave_de d)) in *.
  assert (Hn : notas_lancadas (linha_resumo df (chave_de d)) = count_notna x)
    by reflexivity.
  assert (Hp : pct_sem_nota (linha_resumo df (chave_de d)) = pct_faltas_value x)
    by reflexivity.
  assert (Hm : media_pct (linha_resumo df (chave_de d)) = fround 1 (mean x))
    by reflexivity.
  rewrite Hn, Hp, Hm.
  split; [now apply len_pos|]. split; [reflexivity|].
  split; [apply filter_notna_isna_length|].
  split; [now apply pct_faltas_value_bounds|].
  intros H0. now rewrite (mean_no_value x H0).
Qed.

Lemma resumo_alunos_counts_witness :
  resumo_alunos ex_dados = Ok ex_resumo
  /\ In ex_linha_ana ex_resumo
  /\ notas_lancadas ex_linha_ana + count_isna (grupo ex_dados (chave_resumo ex_linha_ana))
     = len (grupo ex_dados (chave_resumo ex_linha_ana))
  /\ 0 <= pct_sem_nota ex_linha_ana <= 100.
Proof.
  assert (Hres : resumo_alunos ex_dados = Ok ex_resumo) by (vm_compute; reflexivity).
  assert (Hin : In ex_linha_ana ex_resumo) by (left; reflexivity).
  destruct (resumo_alunos_counts ex_dados ex_resumo ex_linha_ana Hres Hin)
    as [_ [_ [Hsum [Hpct _]]]].
  split; [exact Hres|]. split; [exact Hin|]. split; [exact Hsum | exact Hpct].
Defined.

(** ** Rows without a student identifier *)

Lemma chave_isna_ne (d : dados) (k : chave) :
  cell_isna (id_aluno d) = true -> chave_notna k = true ->
  chave_eqb (chave_de d) k = false.
Proof.
  intros Hd Hk. destruct (chave_eqb (chave_de d) k) eqn:E; [|reflexivity].
  apply chave_eqb_eq in E. subst k. unfold chave_notna, chave_de in Hk.
  rewrite Hd in Hk. discriminate.
Qed.

Lemma chaves_skip (df1 df2 : list dados) (d : dados) :
  cell_isna (id_aluno d) = true ->
  chaves (df1 ++ d :: df2)%list = chaves (df1 ++ df2)%list.
Proof.
  intros Hd. unfold chaves. rewrite !map_app, !filter_app. cbn [map filter].
  assert (E : chave_notna (chave_de d) = false)
    by (unfold chave_notna, chave_de; now rewrite Hd).
  now rewrite E.
Qed.

Lemma grupo_skip (df1 df2 : list dados) (d : dados) (k : chave) :
  cell_isna (id_aluno d) = true -> chave_notna k = true ->
  grupo (df1 ++ d :: df2)%list k = grupo (df1 ++ df2)%list k.
Proof.
  intros Hd Hk. unfold grupo. rewrite !filter_app. cbn [filter].
  now rewrite (chave_isna_ne d k Hd Hk).
Qed.

(** A row whose [id_aluno] is null is left out of the summary: wherever it
    stands in the frame, the summary is the one of the frame without it. *)
Theorem resumo_alunos_skips_null_id (df1 df2 : list dados) (d : dados) :
  cell_isna (id_aluno d) = true ->
  resumo_alunos (df1 ++ d :: df2)%list = resumo_alunos (df1 ++ df2)%list.
Proof.
  intros Hd. rewrite !resumo_alunos_value, (chaves_skip df1 df2 d Hd).
  do 2 f_equal. apply map_ext_in. intros k Hk.
  apply In_chaves in Hk. destruct Hk as [Hk _].
  unfold linha_resumo. now rewrite (grupo_skip df1 df2 d k Hd Hk).
Qed.

Lemma resumo_alunos_skips_null_id_witness :
  cell_isna (id_aluno ex_sem_id) = true
  /\ resumo_alunos ([ex_quiz] ++ ex_sem_id :: [ex_prova])%list
     = resumo_alunos ([ex_quiz] ++ [ex_prova])%list.
Proof.
  split; [reflexivity|].
  apply (resumo_alunos_skips_null_id [ex_quiz] [ex_prova] ex_sem_id). reflexivity.
Defined.

(** ** The ranking as a table *)

Lemma posicao_leb_false (a b : posicao) :
  posicao_leb a b = false -> posicao_leb b a = true.
Proof. unfold posicao_leb. rewrite Z.leb_gt, Z.leb_le. lia. Qed.

Lemma posicao_leb_trans (a b c : posicao) :
  posicao_leb a b = true -> posicao_leb b c = true -> posicao_leb a c = true.
Proof. unfold posicao_leb. rewrite !Z.leb_le. lia. Qed.

Lemma total_perm (l l' : list posicao) : Permutation l l' -> total l = total l'.
Proof.
  unfold total. induction 1; simpl; lia.
Qed.

Lemma tamanho_cons (d : dados) (l : list dados) (p : string * string) :
  tamanho (d :: l) p = (if par_eqb (par_de d) p then 1 else 0) + tamanho l p.
Proof.
  unfold tamanho, len. simpl. destruct (par_eqb (par_de d) p); [|lia].
  simpl List.length. lia.
Qed.

Lemma indicator_sum (p : string * string) (ks : list (string * string)) :
  NoDup ks ->
  fold_right (fun k acc => (if par_eqb p k then 1 else 0) + acc) 0 ks
  = if existsb (par_eqb p) ks then 1 else 0.
Proof.
  induction 1 as [|k ks Hnin Hnd IH]; simpl; [reflexivity|].
  rewrite IH. destruct (par_eqb p k) eqn:E; simpl; [|reflexivity].
  apply par_eqb_eq in E. subst k.
  destruct (existsb (par_eqb p) ks) eqn:X; [|reflexivity].
  apply existsb_exists in X. destruct X as [k [Hk Ek]].
  apply par_eqb_eq in Ek. subst k. contradiction.
Qed.

Lemma tamanho_sum (l : list dados) (ks : list (string * string)) :
  NoDup ks ->
  fold_right (fun k acc => tamanho l k + acc) 0 ks
  = len (filter (fun d => existsb (par_eqb (par_de d)) ks) l).
Proof.
  intros Hnd. induction l as [|d l IH].
  - simpl. induction ks as [|k ks IHk]; simpl; [reflexivity|].
    inversion Hnd; subst. rewrite IHk by assumption. reflexivity.
  - assert (Hsplit :
      fold_right (fun k acc => tamanho (d :: l) k + acc) 0 ks
      = fold_right (fun k acc => (if par_eqb (par_de d) k then 1 else 0) + acc) 0 ks
        + fold_right (fun k acc => tamanho l k + acc) 0 ks).
    { clear. induction ks as [|k ks IHk]; simpl; [reflexivity|].
      rewrite IHk, tamanho_cons. lia. }
    rewrite Hsplit, IH, (indicator_sum _ _ Hnd). simpl filter.
    destruct (existsb (par_eqb (par_de d)) ks); unfold len; simpl List.length; lia.
Qed.

Lemma filter_all {A : Type} (f : A -> bool) (l : list A) :
  (forall x, In x l -> f x = true) -> filter f l = l.
Proof.
  induction l as [|a l IH]; intros H; simpl; [reflexivity|].
  rewrite (H a (or_introl eq_refl)), IH; [reflexivity|].
  intros x Hx. apply H. now right.
Qed.

Lemma total_tamanho (sel : list dados) (ks : list (string * string)) :
  total (map (fun p => {| pos_rm := fst p; pos_nome := snd p;
                          quantidade := tamanho sel p |}) ks)
  = fold_right (fun k acc => tamanho sel k + acc) 0 ks.
Proof.
  unfold total. induction ks as [|k ks IH]; simpl; [reflexivity|]. now rewrite IH.
Qed.

Lemma StronglySorted_impl {A : Type} (R R' : A -> A -> Prop) (l : list A) :
  (forall a b, R a b -> R' a b) -> StronglySorted R l -> StronglySorted R' l.
Proof.
  intros H. induction 1 as [|a l _ IH Hall]; constructor; [exact IH|].
  eapply Forall_impl; [|exact Hall]. intros b. apply H.
Qed.

(** The ranking is a table of distinct students in descending order of
    [Quantidade]; its counts add up to the number of rows flagged "SIM" (each
    flagged row is counted once), and it is empty exactly when no row is
    flagged. *)
Theorem ranking_table (df : list dados) :
  StronglySorted (fun a b => quantidade b <= quantidade a) (ranking df)
  /\ NoDup (map par_posicao (ranking df))
  /\ total (ranking df) = len (filter foi_alem df)
  /\ (ranking df = [] <-> forall d, In d df -> foi_alem d = false).
Proof.
  unfold ranking. set (sel := filter foi_alem df).
  set (ks := unique par_eqb (map par_de sel)).
  set (mk := fun p : string * string =>
               {| pos_rm := fst p; pos_nome := snd p; quantidade := tamanho sel p |}).
  assert (Hnd : NoDup ks) by apply (unique_NoDup par_eqb par_eqb_eq).
  assert (P : Permutation (sort posicao_leb (map mk ks)) (map mk ks))
    by apply sort_perm.
  split; [|split; [|split]].
  - pose proof (sort_StronglySorted posicao_leb posicao_leb_false
                  posicao_leb_trans (map mk ks)) as S.
    eapply StronglySorted_impl; [|exact S].
    intros a b Hab. now apply Z.leb_le.
  - apply (Permutation_NoDup (Permutation_sym (Permutation_map par_posicao P))).
    rewrite map_map. rewrite (map_ext _ (fun p => p)); [now rewrite map_id|].
    intros [r n]. reflexivity.
  - rewrite (total_perm _ _ P). unfold mk. rewrite total_tamanho.
    rewrite (tamanho_sum sel ks Hnd). f_equal. apply filter_all.
    intros d Hd. apply existsb_exists. exists (par_de d). split.
    + apply (proj2 (unique_In par_eqb par_eqb_eq _ _)). now apply in_map.
    + now apply par_eqb_eq.
  - split.
    + intros E d Hd. destruct (foi_alem d) eqn:F; [|reflexivity]. exfalso.
      assert (Hs : In d sel) by (apply filter_In; now split).
      assert (Hk : In (par_de d) ks)
        by (apply (proj2 (unique_In par_eqb par_eqb_eq _ _)); now apply in_map).
      assert (Hm : In (mk (par_de d)) (sort posicao_leb (map mk ks)))
        by (apply sort_In; now apply in_map).
      rewrite E in Hm. contradiction.
    + intros H. assert (Hsel : sel = []).
      { unfold sel. destruct (filter foi_alem df) as [|d l] eqn:E; [reflexivity|].
        assert (Hd : In d (filter foi_alem df)) by (rewrite E; now left).
        apply filter_In in Hd. destruct Hd as [Hd F].
        rewrite (H d Hd) in F. discriminate. }
      unfold ks. rewrite Hsel. reflexivity.
Qed.

(** ** Choosing a class *)

Lemma In_turma_dropna (df : list dados) (t : string) :
  In t (turma_dropna df) <-> exists d, In d df /\ turma d = Str t.
Proof.
  unfold turma_dropna. rewrite in_flat_map. split.
  - intros [d [Hd Ht]]. exists d. split; [exact Hd|].
    destruct (turma d) as [|s|x|p]; try contradiction.
    destruct Ht as [<-|[]]. reflexivity.
  - intros [d [Hd Ht]]. exists d. split; [exact Hd|]. rewrite Ht. now left.
Qed.

Lemma In_turmas (df : list dados) (t : string) :
  In t (turmas df) <-> exists d, In d df /\ turma d = Str t.
Proof.
  unfold turmas. rewrite sort_In, (unique_In String.eqb String.eqb_eq).
  apply In_turma_dropna.
Qed.

(** The list of classes offered holds each text value of the column
    [turma] once, in ascending text order, and nothing else. *)
Theorem turmas_sorted_distinct (df : list dados) :
  StronglySorted (fun s t => String.leb s t = true) (turmas df)
  /\ NoDup (turmas df)
  /\ forall t, In t (turmas df) <-> exists d, In d df /\ turma d = Str t.
Proof.
  split; [|split].
  - apply (sort_StronglySorted String.leb string_leb_false string_leb_trans).
  - unfold turmas. apply (Permutation_NoDup (Permutation_sym (sort_perm _ _))).
    apply (unique_NoDup String.eqb String.eqb_eq).
  - apply In_turmas.
Qed.

(** A class is offered exactly when it has rows: choosing any class of the
    list gives a [df_turma] that is not empty, so the message "Sem dados para
    esta turma" is never shown for a listed class, and a class with rows is
    in the list. *)
Theorem listed_turma_has_rows (df : list dados) (t : string) :
  In t (turmas df) <-> filtrar_turma df t <> [].
Proof.
  rewrite In_turmas. unfold filtrar_turma. split.
  - intros [d [Hd Ht]] E.
    assert (H : In d (filter (fun d0 => eq_str (turma d0) t) df)).
    { apply filter_In. split; [exact Hd|]. rewrite Ht. apply String.eqb_refl. }
    rewrite E in H. contradiction.
  - intros Hne. destruct (filter _ df) as [|d l] eqn:E; [congruence|].
    assert (H : In d (filter (fun d0 => eq_str (turma d0) t) df))
      by (rewrite E; now left).
    apply filter_In in H. destruct H as [Hd Ht]. exists d. split; [exact Hd|].
    destruct (turma d) as [|s|x|p]; try discriminate.
    apply String.eqb_eq in Ht. now subst.
Qed.

(** ** Choosing a student *)

Lemma dict_get_set_same {V : Type} (k : string) (v : V) (m : list (string * V)) :
  dict_get k (dict_set k v m) = Some v.
Proof.
  induction m as [|[k' v'] m IH]; simpl.
  - now rewrite String.eqb_refl.
  - destruct (String.eqb k' k) eqn:E; simpl; rewrite E; [reflexivity | exact IH].
Qed.

Lemma dict_get_set_other {V : Type} (k k' : string) (v : V) (m : list (string * V)) :
  k <> k' -> dict_get k' (dict_set k v m) = dict_get k' m.
Proof.
  intros Hne. induction m as [|[k0 v0] m IH]; simpl.
  - apply String.eqb_neq in Hne. now rewrite Hne.
  - destruct (String.eqb k0 k) eqn:E; simpl.
    + apply String.eqb_eq in E. subst k0.
      apply String.eqb_neq in Hne. now rewrite Hne.
    + destruct (String.eqb k0 k'); [reflexivity | exact IH].
Qed.

Lemma dict_set_keys {V : Type} (k : string) (v : V) (m : list (string * V)) :
  NoDup (map fst m) ->
  NoDup (map fst (dict_set k v m))
  /\ forall k', In k' (map fst (dict_set k v m)) <-> k' = k \/ In k' (map fst m).
Proof.
  induction m as [|[k0 v0] m IH]; simpl; intros Hnd.
  - split; [repeat constructor; intros [] | intros k'; intuition].
  - inversion Hnd as [|x xs Hnin Hnd']; subst.
    destruct (String.eqb k0 k) eqn:E; simpl.
    + apply String.eqb_eq in E. subst k0. split; [exact Hnd|].
      intros k'. intuition.
    + destruct (IH Hnd') as [IH1 IH2]. apply String.eqb_neq in E. split.
      * constructor; [|exact IH1]. rewrite IH2. intros [H|H]; [congruence | contradiction].
      * intros k'. rewrite IH2. intuition.
Qed.

Lemma label_map_snoc (res : list resumo) (r : resumo) :
  label_map (res ++ [r])%list
  = dict_set (rotulo r) (res_id_aluno r) (label_map res).
Proof. unfold label_map. now rewrite fold_left_app. Qed.

Lemma label_map_keys (res : list resumo) :
  NoDup (map fst (label_map res))
  /\ forall lbl, In lbl (map fst (label_map res)) <-> In lbl (map rotulo res).
Proof.
  induction res as [|r res IH] using rev_ind.
  - split; [constructor | intros lbl; reflexivity].
  - destruct IH as [IH1 IH2]. rewrite label_map_snoc.
    destruct (dict_set_keys (rotulo r) (res_id_aluno r) (label_map res) IH1)
      as [H1 H2].
    split; [exact H1|]. intros lbl.
    rewrite H2, IH2, map_app, in_app_iff. simpl. intuition.
Qed.

Lemma label_map_get (res : list resumo) (lbl : string) :
  dict_get lbl (label_map res)
  = option_map res_id_aluno
      (find (fun r => String.eqb (rotulo r) lbl) (rev res)).
Proof.
  induction res as [|r res IH] using rev_ind; [reflexivity|].
  rewrite label_map_snoc, rev_app_distr. simpl.
  destruct (String.eqb (rotulo r) lbl) eqn:E.
  - apply String.eqb_eq in E. subst lbl. apply dict_get_set_same.
  - apply String.eqb_neq in E. rewrite (dict_get_set_other _ _ _ _ E). exact IH.
Qed.

(** The options of the student selector are the labels "Nome — RM" of the
    summary lines, each once; a label leads to the [id_aluno] of the last
    summary line that carries it, so of two students with the same name
    and RM only the later one can be reached. *)
Theorem label_map_last_wins (res : list resumo) (lbl : string) :
  NoDup (map fst (label_map res))
  /\ (In lbl (map fst (label_map res)) <-> In lbl (map rotulo res))
  /\ dict_get lbl (label_map res)
     = option_map res_id_aluno
         (find (fun r => String.eqb (rotulo r) lbl) (rev res)).
Proof.
  destruct (label_map_keys res) as [H1 H2].
  split; [exact H1|]. split; [apply H2 | apply label_map_get].
Qed.

Lemma label_map_id_in (res : list resumo) (lbl : string) (id : cell) :
  dict_get lbl (label_map res) = Some id ->
  exists r, In r res /\ res_id_aluno r = id.
Proof.
  rewrite label_map_get.
  destruct (find _ (rev res)) as [r|] eqn:F; [|discriminate].
  simpl. intros H. injection H as <-. apply find_some in F.
  exists r. split; [|reflexivity]. apply in_rev. apply F.
Qed.

(** A student chosen in the selector always has rows: the [id_aluno] a
    label of the class summary leads to is the identifier of some row of
    the class, so [df_aluno] is not empty (the message "Este aluno ainda
    nao tem notas" is never shown), holds only rows of that identifier,
    and is ordered by [fase] and [nome_atividade]. *)
Theorem selected_student_has_rows (df_turma : list dados) (res : list resumo)
    (lbl : string) (id : cell) :
  resumo_alunos df_turma = Ok res ->
  dict_get lbl (label_map res) = Some id ->
  filtrar_aluno df_turma id <> []
  /\ (forall d, In d (filtrar_aluno df_turma id) -> In d df_turma /\ id_aluno d = id)
  /\ StronglySorted (fun x y => dados_leb x y = true) (filtrar_aluno df_turma id).
Proof.
  rewrite resumo_alunos_value. intros Hres Hget. injection Hres as <-.
  apply label_map_id_in in Hget. destruct Hget as [r [Hr Hid]].
  apply sort_In, in_map_iff in Hr. destruct Hr as [k [<- Hk]].
  apply In_chaves in Hk. destruct Hk as [Hk [d [Hd Hkd]]].
  assert (Eid : id_aluno d = id).
  { rewrite <- Hid. subst k. reflexivity. }
  assert (Hna : cell_isna id = false).
  { rewrite <- Eid. rewrite <- Hkd in Hk. unfold chave_notna, chave_de in Hk.
    now destruct (cell_isna (id_aluno d)). }
  unfold filtrar_aluno. split; [|split].
  - intros E.
    assert (Hin : In d (sort dados_leb
                          (filter (fun d0 => eq_cell (id_aluno d0) id) df_turma))).
    { apply sort_In, filter_In. split; [exact Hd|].
      unfold eq_cell. rewrite Eid, Hna. simpl. now apply cell_eqb_eq. }
    rewrite E in Hin. contradiction.
  - intros d' Hd'. apply sort_In, filter_In in Hd'. destruct Hd' as [Hd' He].
    split; [exact Hd'|]. unfold eq_cell in He.
    apply andb_true_iff in He. destruct He as [_ He]. now apply cell_eqb_eq.
  - apply sort_StronglySorted; [apply dados_leb_false | apply dados_leb_trans].
Qed.

Lemma selected_student_has_rows_witness :
  resumo_alunos ex_dados = Ok ex_resumo
  /\ dict_get "Ana — RM1" (label_map ex_resumo) = Some (Str "S1")
  /\ filtrar_aluno ex_dados (Str "S1") <> [].
Proof.
  assert (Hres : resumo_alunos ex_dados = Ok ex_resumo) by (vm_compute; reflexivity).
  assert (Hget : dict_get "Ana — RM1" (label_map ex_resumo) = Some (Str "S1"))
    by (vm_compute; reflexivity).
  split; [exact Hres|]. split; [exact Hget|].
  apply (selected_student_has_rows ex_dados ex_resumo "Ana — RM1" (Str "S1")
           Hres Hget).
Defined.

(** ** What the row cleaner changes *)

(** [fix] returns a row of the same length without raising, and changes
    nothing but the end of text cells: a text cell loses a suffix made of
    white space only and then ends with no white space; every other cell
    is returned as it is. *)
Theorem fix_row_trims_trailing_space_only (row : list cell) :
  exists out,
    fix_row row = Ok out
    /\ List.length out = List.length row
    /\ Forall2
         (fun c o =>
            match c with
            | Str s =>
                exists r w, o = Str r /\ s = r ++ w /\ all_space w = true
                            /\ ends_with_space r = false
            | _ => o = c
            end)
         row out.
Proof.
  exists (map fix_value row). split; [apply fix_row_value|].
  split; [apply length_map|].
  induction row as [|c row IH]; simpl; constructor; [|exact IH].
  destruct c as [|s|x|p]; try reflexivity.
  destruct (rstrip_split s) as [w [Hs Hw]].
  exists (rstrip s), w. split; [reflexivity|]. split; [exact Hs|].
  split; [exact Hw | apply rstrip_no_trailing_space].
Qed.

(** ** Padded flags *)

Section Padded_flag.

Context {rt : Runtime}.

Lemma row_of_grade (atividades : list atividade) (alunos : list aluno) (g : aluno) :
  In g alunos ->
  exists r, In r (dados_de atividades alunos)
            /\ alu_de r = limpar_alu (fix_aluno g).
Proof.
  intros Hg. set (g' := limpar_alu (fix_aluno g)).
  assert (Hg' : In g' (frame_alu alunos))
    by (unfold frame_alu; apply in_map_iff; exists g; now split).
  destruct (matches g' (frame_atv atividades)) as [|a ms] eqn:E.
  - exists (com_percentual (join g' None)). split; [|apply alu_de_join].
    unfold dados_de. apply in_map, In_merge_iff. exists g'.
    split; [exact Hg'|]. left. now split.
  - exists (com_percentual (join g' (Some a))). split; [|apply alu_de_join].
    unfold dados_de. apply in_map, In_merge_iff. exists g'.
    split; [exact Hg'|]. right. exists a. split; [|reflexivity].
    rewrite E. now left.
Qed.

Lemma rstrip_SIM (s w : string) :
  upper s = "SIM" -> all_space w = true -> rstrip (s ++ w) = s.
Proof.
  intros Hs Hw. rewrite (rstrip_app_space s w Hw).
  apply upper_SIM in Hs. simpl in Hs.
  repeat (destruct Hs as [<- | Hs]; [reflexivity|]). contradiction.
Qed.

(** A flag padded with blanks on the right, as a CHAR column returns it,
    still counts: if [ir_alem] of a grade entry is "sim" in any mix of
    cases followed by white space only, the loader returns at least one
    row for that entry and every such row passes the mask of the
    ranking. *)
Theorem padded_flag_counts (atividades : list atividade) (alunos : list aluno)
    (g : aluno) (s w : string) :
  In g alunos ->
  g_ir_alem g = Str (s ++ w) ->
  upper s = "SIM" ->
  all_space w = true ->
  exists ds,
    carregar_dados atividades alunos = Ok ds
    /\ (exists r, In r ds /\ alu_de r = limpar_alu (fix_aluno g))
    /\ forall r, In r ds -> alu_de r = limpar_alu (fix_aluno g) -> foi_alem r = true.
Proof.
  intros Hg Hflag Hs Hw. eexists. split; [apply carregar_dados_value|]. split.
  - destruct (row_of_grade atividades alunos g Hg) as [r [Hr Hd]].
    exists r. split; [now apply sort_In | exact Hd].
  - intros r _ Hd.
    assert (E : ir_alem r = Str s).
    { change (ir_alem r) with (alu_ir_alem (alu_de r)). rewrite Hd.
      cbn [alu_ir_alem limpar_alu g_ir_alem fix_aluno]. rewrite Hflag.
      unfold fix_value. now rewrite (rstrip_SIM s w Hs Hw). }
    unfold foi_alem. rewrite E. simpl. rewrite Hs. reflexivity.
Qed.

End Padded_flag.

Lemma padded_flag_counts_witness :
  In ex_g2 ex_alunos
  /\ g_ir_alem ex_g2 = Str ("Sim" ++ "  ")
  /\ upper "Sim" = "SIM"
  /\ all_space "  " = true
  /\ exists ds,
       carregar_dados (rt := runtime_decimal) ex_atividades ex_alunos = Ok ds
       /\ (exists r, In r ds
                     /\ alu_de r = limpar_alu (rt := runtime_decimal) (fix_aluno ex_g2))
       /\ forall r, In r ds ->
                    alu_de r = limpar_alu (rt := runtime_decimal) (fix_aluno ex_g2) ->
                    foi_alem r = true.
Proof.
  assert (Hg : In ex_g2 ex_alunos) by (right; left; reflexivity).
  split; [exact Hg|]. split; [reflexivity|]. split; [reflexivity|].
  split; [reflexivity|].
  apply (padded_flag_counts (rt := runtime_decimal) ex_atividades ex_alunos
           ex_g2 "Sim" "  " Hg eq_refl eq_refl eq_refl).
Defined.

(** ** The average never exceeds 100 *)

Lemma fle_100_cases (x : float) :
  fle x (Fin (inject_Z 100)) = true ->
  x = NInf \/ exists q, x = Fin q /\ (q <= inject_Z 100)%Q.
Proof.
  destruct x as [| | |q]; simpl; try discriminate.
  - now left.
  - intros H. right. exists q. split; [reflexivity | now apply Qle_bool_iff].
Qed.

Lemma fold_fadd_bound (v : list float) :
  Forall (fun x => fle x (Fin (inject_Z 100)) = true) v ->
  forall (acc : float) (n : Z),
    acc = NInf \/ (exists q, acc = Fin q /\ (q <= inject_Z (100 * n))%Q) ->
    fold_left fadd v acc = NInf
    \/ exists q, fold_left fadd v acc = Fin q
                 /\ (q <= inject_Z (100 * (n + len v)))%Q.
Proof.
  induction 1 as [|x v Hx _ IH]; intros acc n Hacc.
  - simpl. unfold len. simpl. now rewrite Z.add_0_r.
  - cbn [fold_left].
    replace (n + len (x :: v)) with ((n + 1) + len v)
      by (unfold len; cbn [List.length]; lia).
    apply IH. apply fle_100_cases in Hx.
    destruct Hacc as [-> | [q [-> Hq]]], Hx as [-> | [b [-> Hb]]];
      try (left; reflexivity).
    right. exists (Qred (q + b)). split; [reflexivity|].
    rewrite Qred_correct.
    replace (100 * (n + 1)) with (100 * n + 100) by lia.
    rewrite inject_Z_plus. now apply Qplus_le_compat.
Qed.

Lemma mean_at_most_100 (x : list float) :
  Forall (fun v => isna v = true \/ fle v (Fin (inject_Z 100)) = true) x ->
  mean x = NaN \/ fle (mean x) (Fin (inject_Z 100)) = true.
Proof.
  intros Hall. unfold mean.
  destruct (filter notna x) as [|a v] eqn:E; [now left|]. right.
  assert (Hv : Forall (fun y => fle y (Fin (inject_Z 100)) = true) (a :: v)).
  { rewrite <- E. apply Forall_forall. intros y Hy.
    apply filter_In in Hy. destruct Hy as [Hy Hn].
    rewrite Forall_forall in Hall. destruct (Hall y Hy) as [H|H]; [|exact H].
    unfold notna in Hn. rewrite H in Hn. discriminate. }
  assert (Hlen : 0 < len (a :: v)) by (apply len_pos; discriminate).
  assert (Hq : (0 < inject_Z (len (a :: v)))%Q)
    by (unfold Qlt; cbn [Qnum Qden inject_Z]; lia).
  destruct (fold_fadd_bound (a :: v) Hv (Fin 0) 0) as [Hs | [q [Hs Hb]]].
  - right. exists 0%Q. split; [reflexivity | discriminate].
  - unfold fsum. rewrite Hs. unfold fdiv.
    assert (Hneg : Qneg_bool (inject_Z (len (a :: v))) = false).
    { unfold Qneg_bool. apply negb_false_iff, Qle_bool_iff. now apply Qlt_le_weak. }
    now rewrite Hneg.
  - unfold fsum. rewrite Hs. unfold fdiv.
    rewrite (Qeq_bool_inject_Z_pos _ Hlen). unfold fle.
    apply Qle_bool_iff. rewrite Qred_correct.
    apply Qle_shift_div_r; [exact Hq|].
    rewrite <- inject_Z_mult. now rewrite Z.add_0_l in Hb.
Qed.

Lemma fround_at_most_100 (decimals : nat) (x : float) :
  fle x (Fin (inject_Z 100)) = true ->
  fle (fround decimals x) (Fin (inject_Z 100)) = true.
Proof.
  intros H. apply fle_100_cases in H. destruct H as [-> | [q [-> Hq]]];
    [reflexivity|].
  destruct (fround_upper decimals q 100 Hq) as [t [E Ht]]. rewrite E.
  unfold fle. apply Qle_bool_iff. now rewrite Qred_correct.
Qed.

(** In the summary of rows taken from the loader's frame, an average is
    null or at most 100: the percentages are clamped at 100 before they are
    averaged, and the rounding to one decimal does not pass 100. *)
Theorem media_pct_at_most_100 {rt : Runtime} (atividades : list atividade)
    (alunos : list aluno) (ds df_turma : list dados) (res : list resumo)
    (e : resumo) :
  carregar_dados atividades alunos = Ok ds ->
  incl df_turma ds ->
  resumo_alunos df_turma = Ok res ->
  In e res ->
  media_pct e = NaN \/ fle (media_pct e) (Fin (inject_Z 100)) = true.
Proof.
  intros Hload Hincl. rewrite resumo_alunos_value. intros H Hin.
  injection H as <-. apply sort_In, in_map_iff in Hin.
  destruct Hin as [k [<- _]].
  assert (Hm : media_pct (linha_resumo df_turma k) = fround 1 (mean (grupo df_turma k)))
    by (destruct k as [[i r] n]; reflexivity).
  rewrite Hm.
  assert (Hall : Forall (fun v => isna v = true \/ fle v (Fin (inject_Z 100)) = true)
                        (grupo df_turma k)).
  { unfold grupo. apply Forall_forall. intros v Hv.
    apply in_map_iff in Hv. destruct Hv as [d [<- Hd]].
    apply filter_In in Hd. destruct Hd as [Hd _]. apply Hincl in Hd.
    apply (In_carregar_dados _ _ _ _ Hload) in Hd.
    rewrite (In_dados_de _ _ _ Hd). unfold percentual_de.
    destruct (isna (clip_upper (inject_Z 100)
                      (fround 3 (fmul (fdiv (nota d) (nota_maxima d))
                                      (Fin (inject_Z 100)))))) eqn:Hna;
      [now left|].
    right. apply clip_upper_le. now rewrite isna_clip_upper in Hna. }
  destruct (mean_at_most_100 _ Hall) as [-> | Hle]; [now left|].
  right. now apply fround_at_most_100.
Qed.

Lemma media_pct_at_most_100_witness :
  carregar_dados (rt := runtime_decimal) ex_atividades ex_alunos = Ok ex_dados
  /\ incl ex_dados ex_dados
  /\ resumo_alunos ex_dados = Ok ex_resumo
  /\ In ex_linha_ana ex_resumo
  /\ (media_pct ex_linha_ana = NaN
      \/ fle (media_pct ex_linha_ana) (Fin (inject_Z 100)) = true).
Proof.
  assert (Hload : carregar_dados (rt := runtime_decimal) ex_atividades ex_alunos
                  = Ok ex_dados) by (vm_compute; reflexivity).
  assert (Hres : resumo_alunos ex_dados = Ok ex_resumo) by (vm_compute; reflexivity).
  assert (Hin : In ex_linha_ana ex_resumo) by (left; reflexivity).
  split; [exact Hload|]. split; [apply incl_refl|].
  split; [exact Hres|]. split; [exact Hin|].
  apply (media_pct_at_most_100 (rt := runtime_decimal) ex_atividades ex_alunos
           ex_dados ex_dados ex_resumo ex_linha_ana Hload (incl_refl _) Hres Hin).
Defined.

(** ** Stale data until the refresh *)

(** Once a call of [carregar_dados()] has returned a frame, a later call
    returns that same frame whatever has been written to the tables in
    between, and keeps it cached: without [clear] the page never sees a
    change of the database. *)
Theorem cache_stale_until_clear {rt : Runtime} (s : session) (v : list dados)
    (atividades : list atividade) (alunos : list aluno) :
  fst (carregar_dados_cached s) = Ok v ->
  let s1 := snd (carregar_dados_cached s) in
  let s2 := db_write atividades alunos s1 in
  cache s1 = Some v
  /\ fst (carregar_dados_cached s2) = Ok v
  /\ cache (snd (carregar_dados_cached s2)) = Some v.
Proof.
  intros Hcall. cbv zeta.
  assert (Hc : cache (snd (carregar_dados_cached s)) = Some v).
  { unfold carregar_dados_cached in *.
    destruct (cache s) as [u|] eqn:E.
    - simpl in *. rewrite E. congruence.
    - destruct (carregar_dados (db_atividades s) (db_alunos s)) as [u|e];
        simpl in *; [congruence | discriminate]. }
  split; [exact Hc|].
  unfold carregar_dados_cached at 1 3. cbn [cache db_write].
  rewrite Hc. split; [reflexivity|]. simpl. exact Hc.
Qed.

Lemma cache_stale_until_clear_witness :
  fst (carregar_dados_cached (rt := runtime_decimal) ex_session) = Ok ex_dados
  /\ fst (carregar_dados_cached (rt := runtime_decimal)
            (db_write [] [] (snd (carregar_dados_cached (rt := runtime_decimal)
                                    ex_session))))
     = Ok ex_dados.
Proof.
  assert (H : fst (carregar_dados_cached (rt := runtime_decimal) ex_session)
              = Ok ex_dados) by (vm_compute; reflexivity).
  split; [exact H|].
  apply (cache_stale_until_clear (rt := runtime_decimal) ex_session ex_dados [] [] H).
Defined.

(** ** Null score *)

Section Null_score.

Context {rt : Runtime}.

(** C7: in any table of grade entries, an entry whose [nota] is NULL has
    at least one row in the loader's frame, and every row derived from it
    has a null [nota] and a null [percentual] ("None" not being a number
    for the parser); and in a frame where such a row is the only record of
    its student, the summary has that student's line with no grade
    recorded and 100 percent missing. *)
Theorem null_score_null_percentage (atividades : list atividade)
    (alunos : list aluno) (g : aluno) (ds : list dados) (r : dados)
    (df : list dados) :
  to_double "None" = None ->
  In g alunos ->
  g_nota g = Null ->
  carregar_dados atividades alunos = Ok ds ->
  (exists r0, In r0 ds /\ alu_de r0 = limpar_alu (fix_aluno g))
  /\ (In r ds ->
      alu_de r = limpar_alu (fix_aluno g) ->
      nota r = NaN
      /\ percentual r = NaN
      /\ (In r df ->
          cell_isna (id_aluno r) = false ->
          grupo df (chave_de r) = [percentual r] ->
          exists out,
            resumo_alunos df = Ok out
            /\ In {| res_id_aluno := id_aluno r;
                     res_rm := rm r;
                     res_nome := nome r;
                     media_pct := NaN;
                     notas_lancadas := 0;
                     pct_sem_nota := 100 |} out)).
Proof.
  intros Hnone Hg Hnull Hload. split.
  - destruct (row_of_grade atividades alunos g Hg) as [r0 [Hr0 Hd0]].
    exists r0. split; [|exact Hd0].
    now apply (In_carregar_dados _ _ _ _ Hload).
  - intros Hin Hd.
    assert (Hnota : nota r = NaN).
    { change (nota r) with (alu_nota (alu_de r)). rewrite Hd.
      cbn [alu_nota limpar_alu g_nota fix_aluno]. rewrite Hnull.
      unfold nota_to_numeric, to_numeric_coerce. simpl. now rewrite Hnone. }
    assert (Hpct : percentual r = NaN).
    { apply (In_carregar_dados _ _ _ _ Hload) in Hin.
      rewrite (In_dados_de _ _ _ Hin), Hnota. reflexivity. }
    split; [exact Hnota|]. split; [exact Hpct|].
    intros Hdf Hid Hgrupo. eexists. split; [apply resumo_alunos_value|].
    apply sort_In, in_map_iff. exists (chave_de r). split.
    + unfold linha_resumo. rewrite Hgrupo, Hpct. reflexivity.
    + apply In_chaves. split.
      * unfold chave_notna, chave_de. now rewrite Hid.
      * exists r. split; [exact Hdf | reflexivity].
Qed.

End Null_score.

(** C7 on the sample tables: Bia has no grade on the activity A1, and in
    the class where that is her only record her line reads 0 grades and
    100 percent missing. *)
Lemma null_score_null_percentage_witness :
  to_double (Runtime := runtime_decimal) "None" = None
  /\ In ex_sem_nota ex_alunos
  /\ g_nota ex_sem_nota = Null
  /\ carregar_dados (rt := runtime_decimal) ex_atividades ex_alunos = Ok ex_dados
  /\ In ex_linha_sem_nota ex_dados
  /\ alu_de ex_linha_sem_nota = limpar_alu (rt := runtime_decimal) (fix_aluno ex_sem_nota)
  /\ In ex_linha_sem_nota ex_turma
  /\ cell_isna (id_aluno ex_linha_sem_nota) = false
  /\ grupo ex_turma (chave_de ex_linha_sem_nota) = [percentual ex_linha_sem_nota]
  /\ nota ex_linha_sem_nota = NaN
  /\ percentual ex_linha_sem_nota = NaN
  /\ exists out,
       resumo_alunos ex_turma = Ok out
       /\ In {| res_id_aluno := Str "S2"; res_rm := "RM2"; res_nome := "Bia";
                media_pct := NaN; notas_lancadas := 0; pct_sem_nota := 100 |} out.
Proof.
  assert (Hg : In ex_sem_nota ex_alunos) by (right; right; left; reflexivity).
  assert (Hload : carregar_dados (rt := runtime_decimal) ex_atividades ex_alunos
                  = Ok ex_dados) by (vm_compute; reflexivity).
  assert (Hr : In ex_linha_sem_nota ex_dados) by (right; right; left; reflexivity).
  assert (Hd : alu_de ex_linha_sem_nota
               = limpar_alu (rt := runtime_decimal) (fix_aluno ex_sem_nota))
    by (vm_compute; reflexivity).
  assert (Hin : In ex_linha_sem_nota ex_turma) by (right; right; left; reflexivity).
  destruct (null_score_null_percentage (rt := runtime_decimal)
              ex_atividades ex_alunos ex_sem_nota ex_dados ex_linha_sem_nota
              ex_turma eq_refl Hg eq_refl Hload) as [_ Hrow].
  destruct (Hrow Hr Hd) as [Hnota [Hpct Hres]].
  split; [reflexivity|]. split; [exact Hg|]. split; [reflexivity|].
  split; [exact Hload|]. split; [exact Hr|]. split; [exact Hd|].
  split; [exact Hin|]. split; [reflexivity|]. split; [reflexivity|].
  split; [exact Hnota|]. split; [exact Hpct|].
  apply Hres; [exact Hin | reflexivity | reflexivity].
Defined.
